(** * pdf-service: template substitution, section pruning and the /upload-pdf handler

    A shallow embedding of [src/index.js] and of its sibling variant
    [src/unnamed/part_000] (the one with [TEST_MODE], [futurePlans] and the
    story step), with the properties of the specification stated over it.

    JavaScript strings are sequences of UTF-16 code units: they are modelled
    as [list N], one number per code unit.  Values are the ones a JSON body
    can deliver (plus [undefined]).  Exceptions are an explicit result type.
    The document the pruner works on is a first-child / next-sibling tree. *)

From Stdlib Require Import ZArith NArith List String Ascii Lia QArith Qminmax DecimalString.
From Stdlib Require Import Qround Qabs Qpower Lqa SpecFloat.
From stdpp Require Import base option list gmap.
Import ListNotations.

Local Open Scope N_scope.

(** ** Strings *)

Abbreviation jsstring := (list N).

(** The code units of an ASCII literal. *)
Definition js (s : string) : jsstring :=
  List.map N_of_ascii (list_ascii_of_string s).

(** [\s] of a regular expression and the characters [trim()] strips:
    WhiteSpace (TAB, VT, FF, SP, NBSP, ZWNBSP and category Zs) and
    LineTerminator (LF, CR, LS, PS). *)
Definition isWhiteSpace (c : N) : bool :=
  bool_decide (c ∈ [9; 10; 11; 12; 13; 32; 160; 5760;
                    8232; 8233; 8239; 8287; 12288; 65279])
  || ((8192 <=? c) && (c <=? 8202)).

(** [\w] without the [u] and [i] flags: [A-Za-z0-9_]. *)
Definition isWordChar (c : N) : bool :=
  ((48 <=? c) && (c <=? 57)) || ((65 <=? c) && (c <=? 90))
  || (c =? 95) || ((97 <=? c) && (c <=? 122)).

Definition LF : N := 10.
Definition LBRACE : N := 123.
Definition RBRACE : N := 125.

Fixpoint trimStart (s : jsstring) : jsstring :=
  match s with
  | c :: s' => if isWhiteSpace c then trimStart s' else s
  | [] => []
  end.

Definition trimEnd (s : jsstring) : jsstring := rev (trimStart (rev s)).

(** [s.trim()] *)
Definition trim (s : jsstring) : jsstring := trimEnd (trimStart s).

(** [s.split(sep)] for a one-code-unit separator: [n] occurrences give
    [n + 1] pieces, the empty string gives one empty piece. *)
Fixpoint split (sep : N) (s : jsstring) : list jsstring :=
  match s with
  | [] => [[]]
  | c :: s' =>
      if c =? sep then [] :: split sep s'
      else match split sep s' with
           | l :: ls => (c :: l) :: ls
           | [] => [[c]]
           end
  end.

(** [s.replace(/\n/g, "<br>")] *)
Definition replaceNewlines (s : jsstring) : jsstring :=
  flat_map (fun c => if c =? LF then js "<br>" else [c]) s.

(** [line.replace(/^- /, "")]: one leading dash-space is dropped. *)
Definition stripDash (line : jsstring) : jsstring :=
  match line with
  | 45 :: 32 :: r => r
  | _ => line
  end.

Definition nonEmpty (s : jsstring) : bool :=
  match s with [] => false | _ => true end.

(** ** The token pattern [/{{\s*(\w+)\s*}}/]

    The matcher follows the regular expression's own semantics: every
    quantifier is greedy and gives characters back when what follows fails.
    Each combinator takes the continuation that matches the rest of the
    pattern. *)

Section Regex.
Context {A : Type}.

(** a literal character *)
Definition chr (c : N) (k : jsstring -> option A) (s : jsstring) : option A :=
  match s with
  | c' :: s' => if c' =? c then k s' else None
  | [] => None
  end.

(** [cls*]: the longest run first, then shorter ones *)
Fixpoint star (cls : N -> bool) (k : jsstring -> option A) (s : jsstring)
  : option A :=
  match s with
  | c :: s' =>
      if cls c then
        match star cls k s' with
        | Some r => Some r
        | None => k s
        end
      else k s
  | [] => k []
  end.

(** a capturing [cls*], after the captured prefix [acc] *)
Fixpoint starCap (cls : N -> bool) (acc : jsstring)
    (k : jsstring -> jsstring -> option A) (s : jsstring) : option A :=
  match s with
  | c :: s' =>
      if cls c then
        match starCap cls (acc ++ [c]) k s' with
        | Some r => Some r
        | None => k acc s
        end
      else k acc s
  | [] => k acc []
  end.

(** a capturing [cls+] *)
Definition plusCap (cls : N -> bool)
    (k : jsstring -> jsstring -> option A) (s : jsstring) : option A :=
  match s with
  | c :: s' => if cls c then starCap cls [c] k s' else None
  | [] => None
  end.
End Regex.

(** A match of the pattern at the head of [s]: the captured name and the
    text after the match. *)
Definition matchToken (s : jsstring) : option (jsstring * jsstring) :=
  chr LBRACE (chr LBRACE
    (star isWhiteSpace
      (plusCap isWordChar (fun key =>
        star isWhiteSpace
          (chr RBRACE (chr RBRACE (fun rest => Some (key, rest)))))))) s.

(** [template.replace(/.../g, f)]: matches are found left to right and do
    not overlap; [skip] counts the characters of the current match that are
    still to be passed over, text outside matches is copied. *)
Fixpoint replaceAll (f : jsstring -> jsstring) (skip : nat) (s : jsstring)
  : jsstring :=
  match s with
  | [] => []
  | c :: s' =>
      match skip with
      | S n => replaceAll f n s'
      | O =>
          match matchToken s with
          | Some (key, rest) =>
              f key ++ replaceAll f (length s' - length rest)%nat s'
          | None => c :: replaceAll f 0 s'
          end
      end
  end.

(** ** Values and objects *)

(** What a field can hold: [undefined], or a JSON value.  Numbers are the
    integer-valued ones (of a size that prints in plain decimal); an array
    or object (or an inherited function) is [VObject str], where [str] is
    the text [String()] gives for it. *)
Inductive value :=
| VUndefined
| VNull
| VBool (b : bool)
| VNumber (n : Z)
| VString (s : jsstring)
| VObject (str : jsstring).

#[global] Instance value_eq_dec : EqDecision value.
Proof. solve_decision. Defined.

(** [String(v)] *)
Definition ToString (v : value) : jsstring :=
  match v with
  | VUndefined => js "undefined"
  | VNull => js "null"
  | VBool true => js "true"
  | VBool false => js "false"
  | VNumber n => js (NilZero.string_of_int (Z.to_int n))
  | VString s => s
  | VObject str => str
  end.

(** Truthiness, as [!v], [v ? a : b] and [if (v)] test it. *)
Definition ToBoolean (v : value) : bool :=
  match v with
  | VUndefined | VNull => false
  | VBool b => b
  | VNumber n => negb (n =? 0)%Z
  | VString s => nonEmpty s
  | VObject _ => true
  end.

(** [typeof v === 'string'] *)
Definition isString (v : value) : bool :=
  match v with VString _ => true | _ => false end.

(** An object literal: its own properties. *)
Abbreviation object := (gmap jsstring value).

(** The members every object literal inherits from [Object.prototype]:
    the property name and the name of the built-in function it holds. *)
Definition inheritedFunctions : list (string * string) :=
  [ ("constructor", "Object"); ("hasOwnProperty", "hasOwnProperty");
    ("isPrototypeOf", "isPrototypeOf");
    ("propertyIsEnumerable", "propertyIsEnumerable");
    ("toLocaleString", "toLocaleString"); ("toString", "toString");
    ("valueOf", "valueOf"); ("__defineGetter__", "__defineGetter__");
    ("__defineSetter__", "__defineSetter__");
    ("__lookupGetter__", "__lookupGetter__");
    ("__lookupSetter__", "__lookupSetter__") ]%string.

Fixpoint lookupInherited (l : list (string * string)) (k : jsstring)
  : value :=
  match l with
  | (p, f) :: l' =>
      if bool_decide (k = js p)
      then VObject (js "function " ++ js f ++ js "() { [native code] }")
      else lookupInherited l' k
  | [] =>
      if bool_decide (k = js "__proto__") then VObject (js "[object Object]")
      else VUndefined
  end.

(** [o[k]]: an own property, else an inherited one, else [undefined]. *)
Definition get (o : object) (k : jsstring) : value :=
  match o !! k with
  | Some v => v
  | None => lookupInherited inheritedFunctions k
  end.

(** Exceptions. *)
Inductive exn :=
| TypeError
| SurfaceError (message : jsstring)
| StorageError (message : jsstring).

Inductive result (A : Type) :=
| Ok (a : A)
| Throw (e : exn).
Arguments Ok {A} a.
Arguments Throw {A} e.

#[global] Instance result_bind : MBind result := fun A B f r =>
  match r with
  | Ok a => f a
  | Throw e => Throw e
  end.

(** ** [replaceTemplate] *)

Definition listFields : list jsstring :=
  [ js "interests"; js "webinars"; js "team"; js "position"; js "trips";
    js "tasks"; js "leadershipAcademy" ].

(** The lines of a list field: split on newline, trimmed, empty ones
    dropped. *)
Definition fieldLines (text : jsstring) : list jsstring :=
  List.filter nonEmpty (List.map trim (split LF text)).

Definition listItem (line : jsstring) : jsstring :=
  js "<li>" ++ trim (stripDash line) ++ js "</li>".

(** The callback given to [template.replace]. *)
Definition replacer (data : object) (key : jsstring) : jsstring :=
  let value := get data key in
  if bool_decide (value = VUndefined) then js "{{" ++ key ++ js "}}"
  else if bool_decide (key ∈ listFields) then
    let lines := fieldLines (ToString value) in
    if (length lines =? 1)%nat then js "<p>" ++ nth 0 lines [] ++ js "</p>"
    else js "<ul>" ++ concat (List.map listItem lines) ++ js "</ul>"
  else replaceNewlines (ToString value).

Definition replaceTemplate (template : jsstring) (data : object) : jsstring :=
  replaceAll (replacer data) 0 template.

(** ** [formatDate] *)

(** A destructured array element inside a template literal: a missing one
    is [undefined] and prints as such. *)
Definition interpolate (o : option jsstring) : jsstring :=
  match o with
  | Some s => s
  | None => js "undefined"
  end.

Definition formatDate (isoDate : value) : result jsstring :=
  if negb (ToBoolean isoDate) then Ok []
  else match isoDate with
       | VString s =>
           let parts := split 45 s in
           let year := interpolate (parts !! 0%nat) in
           let month := interpolate (parts !! 1%nat) in
           let day := interpolate (parts !! 2%nat) in
           Ok (day ++ js " / " ++ month ++ js " / " ++ year)
       | _ => Throw TypeError
       end.

(** ** The document

    A first-child / next-sibling tree of elements; [eid] is the [id]
    attribute when the element has one. *)
Inductive dom :=
| Leaf
| Elem (tag : jsstring) (eid : option jsstring) (firstChild nextSibling : dom).

(** An element handle: the way to it from the root. *)
Inductive step := Down | Next.
Abbreviation element := (list step).

(** [document.getElementById(i)]: the first element in tree order whose
    [id] is [i], or [None] for [null]. *)
Fixpoint getElementById (d : dom) (i : jsstring) : option element :=
  match d with
  | Leaf => None
  | Elem _ a c s =>
      if bool_decide (a = Some i) then Some []
      else match getElementById c i with
           | Some p => Some (Down :: p)
           | None =>
               match getElementById s i with
               | Some p => Some (Next :: p)
               | None => None
               end
           end
  end.

(** [el.remove()]: the element leaves the tree with everything below it. *)
Fixpoint remove (el : element) (d : dom) {struct d} : dom :=
  match d with
  | Leaf => Leaf
  | Elem t a c s =>
      match el with
      | [] => s
      | Down :: p => Elem t a (remove p c) s
      | Next :: p => Elem t a c (remove p s)
      end
  end.

(** [const el = document.getElementById(i); if (el) el.remove();] *)
Definition removeIfPresent (i : jsstring) (document : dom) : dom :=
  match getElementById document i with
  | Some el => remove el document
  | None => document
  end.

(** [ids.forEach(id => { const el = ...; if (el) el.remove(); })] *)
Definition removeAll (ids : list jsstring) (document : dom) : dom :=
  foldl (fun d i => removeIfPresent i d) document ids.

(** The number of elements whose [id] is [i]. *)
Fixpoint countId (i : jsstring) (d : dom) : nat :=
  match d with
  | Leaf => 0
  | Elem _ a c s =>
      ((if bool_decide (a = Some i) then 1 else 0) + countId i c + countId i s)%nat
  end.

(** ** The pruning callback of [page.evaluate] *)

(** The two sources: [index.js], and [part_000] with its [TEST_MODE]. *)
Inductive variant :=
| IndexJs
| Part000 (TEST_MODE : bool).

(** [!v || v.trim() === ''] : only a string has a [trim] to call. *)
Definition isEmptyText (v : value) : result bool :=
  if negb (ToBoolean v) then Ok true
  else match v with
       | VString s => Ok (bool_decide (trim s = []))
       | _ => Throw TypeError
       end.

(** [value === undefined || value === null ||
     (typeof value === 'string' && value.trim() === '')] *)
Definition isEmptyPrevious (v : value) : bool :=
  bool_decide (v = VUndefined) || bool_decide (v = VNull)
  || match v with
     | VString s => bool_decide (trim s = [])
     | _ => false
     end.

Definition previousFields : list jsstring :=
  [ js "previousMonths"; js "previousCourses"; js "previousTrips";
    js "previousVolunteering"; js "previousTasks" ].

(** [previousData.some(...)] *)
Definition hasEmptyPreviousData (data : object) : bool :=
  existsb (fun k => isEmptyPrevious (get data k)) previousFields.

Definition elementsToRemove : list jsstring :=
  [ js "team"; js "position"; js "team-break-line"; js "feadback" ].

Definition pruneAcademy (data : object) (document : dom) : result dom :=
  b ← isEmptyText (get data (js "leadershipAcademy"));
  Ok (if b : bool then removeIfPresent (js "academy") document else document).

(** Only [part_000] has this block. *)
Definition pruneStory (v : variant) (data : object) (document : dom)
  : result dom :=
  match v with
  | IndexJs => Ok document
  | Part000 _ =>
      b ← isEmptyText (get data (js "storyText"));
      Ok (if b : bool then removeIfPresent (js "story") document else document)
  end.

Definition pruneTeam (data : object) (document : dom) : result dom :=
  b ← isEmptyText (get data (js "team"));
  Ok (if b : bool then removeAll elementsToRemove document else document).

Definition pruneStoryLink (data : object) (document : dom) : result dom :=
  b ← isEmptyText (get data (js "storyLink"));
  Ok (if b : bool then removeIfPresent (js "story-link") document else document).

Definition pruneChart (data : object) (document : dom) : dom :=
  if hasEmptyPreviousData data
  then removeIfPresent (js "chart-container") document
  else document.

(** The blocks gated on a text field, in the order of the source. *)
Definition pruneSections (v : variant) (data : object) (document : dom)
  : result dom :=
  d1 ← pruneAcademy data document;
  d2 ← pruneStory v data d1;
  d3 ← pruneTeam data d2;
  pruneStoryLink data d3.

(** The whole callback. *)
Definition prune (v : variant) (data : object) (document : dom) : result dom :=
  d4 ← pruneSections v data document;
  Ok (pruneChart data d4).

(** The second callback: every [canvas] gives way to a fresh [img]. *)
Fixpoint rasterize (d : dom) : dom :=
  match d with
  | Leaf => Leaf
  | Elem t a c s =>
      if bool_decide (t = js "canvas") then Elem (js "img") None Leaf (rasterize s)
      else Elem t a (rasterize c) (rasterize s)
  end.

(** ** Page size

    A Number is modelled by the rational it stands for.  The Numbers of
    JavaScript are the binary64 ones: [double q] is the binary64 number
    nearest to [q], with 53 significant bits, the even significand winning
    a tie.  The range of the exponent is not modelled: the handler
    multiplies a pixel height, an integer of 32 bits, by a constant. *)

(** The exponent [e] with [2^e <= q < 2^(e+1)], for a positive [q]. *)
Definition ilog2 (q : Q) : Z :=
  let e := (Z.log2 (Qnum q) - Z.log2 (Zpos (Qden q)))%Z in
  if Qle_bool (2 ^ e) q then e else (e - 1)%Z.

(** The integer nearest to [m]; the even one, of two that are as near. *)
Definition roundHalfEven (m : Q) : Z :=
  let f := Qfloor m in
  match Qcompare (m - inject_Z f) (1 # 2) with
  | Lt => f
  | Gt => (f + 1)%Z
  | Eq => if Z.even f then f else (f + 1)%Z
  end.

(** A positive [q] rounded to 53 significant bits. *)
Definition nearest (q : Q) : Q :=
  let ulp := (2 ^ (ilog2 q - 52))%Q in
  Qred (inject_Z (roundHalfEven (q / ulp)) * ulp).

Definition double (q : Q) : Q :=
  match Qcompare q 0 with
  | Eq => 0
  | Gt => nearest q
  | Lt => - nearest (- q)
  end.

(** [a * b] on Numbers: the exact product, rounded. *)
Definition times (a b : Q) : Q := double (a * b).

(** [Math.max(a, b)] *)
Definition MathMax (a b : Q) : Q := if Qle_bool b a then a else b.

(** [Math.max(297, (bodyHeight * 0.264583))]: [bodyHeight] is the integer
    [document.body.scrollHeight] gave, and the literal [0.264583] stands for
    the Number nearest to it. *)
Definition heightInMM (bodyHeight : Z) : Q :=
  MathMax 297 (times (inject_Z bodyHeight) (double 0.264583)).

(** The argument of [page.pdf]; [height] is the number put before [mm]. *)
Record pdfOptions := {
  printBackground : bool;
  margin : jsstring * jsstring * jsstring * jsstring;
  width : jsstring;
  height : Q
}.

Definition pdfOptionsFor (bodyHeight : Z) : pdfOptions :=
  {| printBackground := true;
     margin := (js "0mm", js "0mm", js "0mm", js "0mm");
     width := js "210mm";
     height := heightInMM bodyHeight |}.

(** ** The [/upload-pdf] handler *)

Inductive credentials := Credentials (accessToken : jsstring).

(** What the handler reads besides the request: the cached [tokens], the
    file [tokens.json] (absent, or holding what the OAuth callback wrote
    there), [template.html] in the working directory, and the clock. *)
Record world := {
  tokens : option credentials;
  tokensFile : option credentials;
  templateFile : option jsstring;
  now : Z
}.

(** The collaborators: the browser and the stores.  Each call either gives
    its result or throws.  [setContent] stands for [newPage], [setContent]
    and the settling delay together: it gives the document the callbacks
    will see. *)
Record external := {
  launch : result unit;
  setContent : jsstring -> result dom;
  scrollHeight : dom -> Z;
  pdf : dom -> pdfOptions -> result (list N);
  writeFileSync : jsstring -> list N -> result unit;
  filesCreate : jsstring -> option value -> list N -> result (jsstring * jsstring)
}.

(** The calls the handler makes, in order. *)
Inductive event :=
| SetCredentials (c : credentials)
| Launch
| SetContent (html : jsstring)
| EvaluatePrune
| EvaluateRasterize
| Pdf (o : pdfOptions)
| WriteFile (fileName : jsstring)
| FilesCreate (name : jsstring) (parents : option value)
| Close.

Inductive errorMessage :=
| Literal (text : jsstring)
| MessageOf (e : exn).

Inductive payload :=
| Error (error : errorMessage) (authUrl : option jsstring)
| Uploaded (testMode : option bool) (fileId viewLink : jsstring)
| Saved (directory fileName : jsstring).

Record response := { status : Z; json : payload }.

(** A computation that logs its calls and may throw. *)
Definition io (A : Type) : Type := list event * result A.

#[global] Instance io_ret : MRet io := fun A a => ([], Ok a).

#[global] Instance io_bind : MBind io := fun A B f m =>
  match m with
  | (l, Ok a) => let '(l', r) := f a in (l ++ l', r)
  | (l, Throw e) => (l, Throw e)
  end.

Definition call {A} (e : event) (r : result A) : io A := ([e], r).

Definition isTestMode (v : variant) : bool :=
  match v with
  | Part000 true => true
  | _ => false
  end.

Definition commonFields : list string :=
  [ "name"; "region"; "community"; "age"; "status"; "img"; "interests";
    "team"; "position"; "webinars"; "trips"; "tasks"; "leadershipAcademy";
    "communityActivities"; "outsideActivities"; "feadback";
    "giverPosition"; "giver"; "previousMonths"; "previousCourses";
    "previousTrips"; "previousVolunteering"; "previousTasks";
    "currentMonths"; "currentCourses"; "currentTrips";
    "currentVolunteering"; "currentTasks"; "date" ]%string.

Definition storyFields : list string :=
  [ "storyImg"; "storyTitle"; "storyText"; "storyLink" ]%string.

Definition templateFields (v : variant) : list jsstring :=
  List.map js
    (commonFields
     ++ match v with IndexJs => [] | Part000 _ => ["futurePlans"%string] end
     ++ storyFields).

(** The object literal [templateData]: the destructured fields of the
    body, with [date] formatted. *)
Definition templateData (v : variant) (body : object) (date : jsstring)
  : object :=
  list_to_map
    (List.map (fun k => (k, if bool_decide (k = js "date") then VString date
                            else get body k))
       (templateFields v)).

Definition pdfFileName (w : world) (body : object) : jsstring :=
  let fileName := get body (js "fileName") in
  if ToBoolean fileName then ToString fileName ++ js ".pdf"
  else js "document-" ++ ToString (VNumber (now w)) ++ js ".pdf".

(** The body of the inner [try], from [setContent] on. *)
Definition renderAndStore (v : variant) (ext : external) (data : object)
    (processedHtml name : jsstring) (folderId : value) : io payload :=
  document ← call (SetContent processedHtml) (setContent ext processedHtml);
  pruned ← call EvaluatePrune (prune v data document);
  final ← call EvaluateRasterize (Ok (rasterize pruned));
  let o := pdfOptionsFor (scrollHeight ext final) in
  pdfBuffer ← call (Pdf o) (pdf ext final o);
  if isTestMode v then
    _ ← call (WriteFile name) (writeFileSync ext name pdfBuffer);
    mret (Saved (js "test-pdfs") name)
  else
    let parents := if ToBoolean folderId then Some folderId else None in
    file ← call (FilesCreate name parents) (filesCreate ext name parents pdfBuffer);
    mret (Uploaded (match v with IndexJs => None | Part000 _ => Some false end)
            (fst file) (snd file)).

Definition serverError (e : exn) : response :=
  {| status := 500; json := Error (MessageOf e) None |}.

(** The inner [try] / [catch] / [finally]: the browser is closed on every
    path on which it was opened. *)
Definition generate (v : variant) (ext : external) (data : object)
    (processedHtml name : jsstring) (folderId : value)
  : list event * response :=
  match launch ext with
  | Throw e => ([Launch], serverError e)
  | Ok _ =>
      let '(l, r) := renderAndStore v ext data processedHtml name folderId in
      (Launch :: l ++ [Close],
       match r with
       | Ok p => {| status := 200; json := p |}
       | Throw e => serverError e
       end)
  end.

(** [if (!tokens && fs.existsSync("tokens.json")) { tokens = ...; }] *)
Definition loadTokens (w : world) : world * list event :=
  match tokens w, tokensFile w with
  | None, Some t =>
      ({| tokens := Some t; tokensFile := tokensFile w;
          templateFile := templateFile w; now := now w |},
       [SetCredentials t])
  | _, _ => (w, [])
  end.

Definition uploadPdf (v : variant) (ext : external) (w : world) (body : object)
  : world * list event * response :=
  let '(w1, l0) := if isTestMode v then (w, []) else loadTokens w in
  if negb (isTestMode v) && bool_decide (tokens w1 = None) then
    (w1, l0, {| status := 401;
                json := Error (Literal (js "Not authenticated"))
                          (Some (js "/auth")) |})
  else
    match templateFile w1 with
    | None =>
        (w1, l0, {| status := 400;
                    json := Error (Literal (js "template.html file not found"))
                              None |})
    | Some htmlTemplate =>
        match formatDate (get body (js "date")) with
        | Throw e => (w1, l0, serverError e)
        | Ok date =>
            let data := templateData v body date in
            let processedHtml := replaceTemplate htmlTemplate data in
            let '(l, r) :=
              generate v ext data processedHtml (pdfFileName w1 body)
                (get body (js "folderId")) in
            (w1, l0 ++ l, r)
        end
    end.

(** What a run of the handler leaves to see: the calls made and the
    response sent. *)
Definition events (run : world * list event * response) : list event :=
  snd (fst run).

Definition reply (run : world * list event * response) : response :=
  snd run.

(** ** The OAuth routes

    [GET /auth], [GET /oauth/callback] and [GET /auth-status], over the same
    [world].  The OAuth client and the write of [tokens.json] are
    collaborators; a write that throws is taken to leave the file as it
    was. *)

Record oauthClient := {
  generateAuthUrl : jsstring;
  getToken : value -> result credentials;
  writeTokens : credentials -> result unit
}.

(** The calls these routes make, in order. *)
Inductive authCall :=
| GenerateAuthUrl
| GetToken (code : value)
| SetClientCredentials (c : credentials)
| WriteTokens (c : credentials).

Inductive content :=
| Html (text : jsstring)
| Plain (text : jsstring)
| RedirectTo (url : jsstring)
| AuthStatus (authenticated : bool) (authUrl : option jsstring)
    (testMode : option bool).

Record answer := { code : Z; sent : content }.

(** [app.get("/auth", ...)] *)
Definition auth (v : variant) (client : oauthClient)
  : list authCall * answer :=
  if isTestMode v then
    ([], {| code := 200;
            sent := Html (js "<h1>Test Mode Active</h1><p>PDFs will be saved locally. No authentication needed.</p>") |})
  else
    ([GenerateAuthUrl],
     {| code := 302; sent := RedirectTo (generateAuthUrl client) |}).

(** [app.get("/oauth/callback", ...)]; [query] is [req.query.code]. *)
Definition oauthCallback (v : variant) (client : oauthClient) (w : world)
    (query : value) : world * list authCall * answer :=
  if isTestMode v then
    (w, [], {| code := 200;
               sent := Html (js "<h1>Test Mode Active</h1><p>No authentication needed in test mode.</p>") |})
  else if negb (ToBoolean query) then
    (w, [], {| code := 400; sent := Plain (js "Missing code") |})
  else
    match getToken client query with
    | Throw _ =>
        (w, [GetToken query],
         {| code := 500; sent := Plain (js "Authentication failed") |})
    | Ok newTokens =>
        match writeTokens client newTokens with
        | Throw _ =>
            (w, [GetToken query; SetClientCredentials newTokens;
                 WriteTokens newTokens],
             {| code := 500; sent := Plain (js "Authentication failed") |})
        | Ok _ =>
            ({| tokens := Some newTokens; tokensFile := Some newTokens;
                templateFile := templateFile w; now := now w |},
             [GetToken query; SetClientCredentials newTokens;
              WriteTokens newTokens],
             {| code := 200;
                sent := Html (js "<h1>Authentication successful!</h1><p>You can now upload PDFs.</p>") |})
        end
    end.

(** [app.get("/auth-status", ...)]: it looks at the cached [tokens] only. *)
Definition authStatus (v : variant) (w : world) : answer :=
  let testMode := match v with IndexJs => None | Part000 t => Some t end in
  if isTestMode v then {| code := 200; sent := AuthStatus true None testMode |}
  else
    match tokens w with
    | Some _ => {| code := 200; sent := AuthStatus true None testMode |}
    | None =>
        {| code := 200;
           sent := AuthStatus false (Some (js "/auth")) testMode |}
    end.

(** ** The vocabulary of the properties *)

(** A run of [cls] characters, followed by text that does not go on with
    one. *)
Definition stops (cls : N -> bool) (t : jsstring) : Prop :=
  match t with
  | c :: _ => cls c = false
  | [] => True
  end.

(** The text of a token: the braces, the name and the optional blanks. *)
Definition tokenText (ws1 key ws2 : jsstring) : jsstring :=
  js "{{" ++ ws1 ++ key ++ ws2 ++ js "}}".

Record tokenParts (ws1 key ws2 : jsstring) : Prop := {
  parts_ws1 : Forall (fun c => isWhiteSpace c = true) ws1;
  parts_key : Forall (fun c => isWordChar c = true) key;
  parts_key_ne : key <> [];
  parts_ws2 : Forall (fun c => isWhiteSpace c = true) ws2
}.

(** [pieces.join(sep)] *)
Fixpoint join (sep : N) (pieces : list jsstring) : jsstring :=
  match pieces with
  | [] => []
  | p :: ps =>
      match ps with
      | [] => p
      | _ => p ++ sep :: join sep ps
      end
  end.

(** The markup of a list field, in the words of the specification: no line
    gives the empty list, one line a paragraph, more lines one item each. *)
Definition listMarkup (lines : list jsstring) : jsstring :=
  match lines with
  | [] => js "<ul></ul>"
  | [line] => js "<p>" ++ line ++ js "</p>"
  | _ => js "<ul>" ++ concat (List.map listItem lines) ++ js "</ul>"
  end.

Definition isDigit (c : N) : bool := (48 <=? c) && (c <=? 57).

(** The parts of a date written [YYYY-MM-DD]. *)
Record isoDate (y m d : jsstring) : Prop := {
  iso_year : length y = 4%nat /\ Forall (fun c => isDigit c = true) y;
  iso_month : length m = 2%nat /\ Forall (fun c => isDigit c = true) m;
  iso_day : length d = 2%nat /\ Forall (fun c => isDigit c = true) d
}.

(** Blank, as the chart block tests it: [undefined], [null], or a string
    that trims to the empty string. *)
Definition blank (v : value) : Prop :=
  v = VUndefined \/ v = VNull \/ exists s, v = VString s /\ trim s = [].

(** The blank test in the words of the specification (section 4.2): the
    absent marker, an explicit null, or a value that, coerced to a string,
    trims to the empty string.  The conditions of the source are compared
    with it. *)
Definition blankSpec (v : value) : bool :=
  bool_decide (v = VUndefined) || bool_decide (v = VNull)
  || bool_decide (trim (ToString v) = []).

(** The values on which [!v || v.trim() === ''] does not throw. *)
Definition trimSafe (v : value) : bool := negb (ToBoolean v) || isString v.

(** What the condition gives on them. *)
Definition emptyText (v : value) : bool :=
  negb (ToBoolean v)
  || match v with
     | VString s => bool_decide (trim s = [])
     | _ => false
     end.

(** What a block gated on a text field does, told by the field and the
    [id]s: the elements are removed, each if it is there, when the field
    holds the number 0 or is blank, and nothing is removed when it holds a
    string with more than blanks in it. *)
Definition removesWhenEmpty (block : object -> dom -> result dom)
    (field : jsstring) (ids : list jsstring) : Prop :=
  forall data document,
    (get data field = VNumber 0 \/ blank (get data field) ->
       block data document
       = Ok (foldl (fun d i => removeIfPresent i d) document ids))
    /\ ((exists s, get data field = VString s /\ trim s <> []) ->
          block data document = Ok document).

(** The fields whose [trim] the callback calls. *)
Definition textFields (v : variant) : list jsstring :=
  js "leadershipAcademy"
  :: match v with IndexJs => [] | Part000 _ => [js "storyText"] end
  ++ [js "team"; js "storyLink"].

Definition runsToEnd (v : variant) (data : object) : Prop :=
  Forall (fun k => trimSafe (get data k) = true) (textFields v).

(** The [id]s the text-gated blocks ask to remove, in order. *)
Definition sectionIds (v : variant) (data : object) : list jsstring :=
  (if emptyText (get data (js "leadershipAcademy")) then [js "academy"] else [])
  ++ match v with
     | IndexJs => []
     | Part000 _ =>
         if emptyText (get data (js "storyText")) then [js "story"] else []
     end
  ++ (if emptyText (get data (js "team")) then elementsToRemove else [])
  ++ (if emptyText (get data (js "storyLink")) then [js "story-link"] else []).

(** Every [id] the callback asks to remove. *)
Definition removedIds (v : variant) (data : object) : list jsstring :=
  sectionIds v data
  ++ (if hasEmptyPreviousData data then [js "chart-container"] else []).

(** Whether the text has two opening braces in a row somewhere. *)
Fixpoint hasOpen (s : jsstring) : bool :=
  match s with
  | c1 :: s' =>
      match s' with
      | c2 :: _ => ((c1 =? LBRACE) && (c2 =? LBRACE)) || hasOpen s'
      | [] => false
      end
  | [] => false
  end.

(** [pieces.join(sep)] for a separator of any length. *)
Fixpoint joinWith (sep : jsstring) (pieces : list jsstring) : jsstring :=
  match pieces with
  | [] => []
  | p :: ps =>
      match ps with
      | [] => p
      | _ => p ++ sep ++ joinWith sep ps
      end
  end.

(** The number of elements of the tree, and of those with a given tag. *)
Fixpoint elements (d : dom) : nat :=
  match d with
  | Leaf => 0
  | Elem _ _ c s => (1 + elements c + elements s)%nat
  end.

Fixpoint countTag (t : jsstring) (d : dom) : nat :=
  match d with
  | Leaf => 0
  | Elem t' _ c s =>
      ((if bool_decide (t' = t) then 1 else 0) + countTag t c + countTag t s)%nat
  end.

(** The rational a binary64 number of the Standard Library stands for. *)
Definition SF2Q (x : spec_float) : option Q :=
  match x with
  | S754_zero _ => Some 0%Q
  | S754_finite s m e =>
      Some ((if s then -1 else 1) * inject_Z (Zpos m) * 2 ^ e)%Q
  | _ => None
  end.

(** Whether the product of the pixel height [h] and the factor is the one
    the binary64 multiplication of the Standard Library gives;
    [148946987526071 * 2^-49] is the factor. *)
Definition agreesWithSFmul (h : positive) : bool :=
  match SF2Q (SFmul 53 1024 (S754_finite false h 0)
                (S754_finite false 148946987526071 (-49))) with
  | Some q => Qeq_bool q (times (inject_Z (Zpos h)) (double 0.264583))
  | None => false
  end.

(** Whether [page.pdf] was reached, and whether a store was written to. *)
Definition isPdf (e : event) : bool :=
  match e with Pdf _ => true | _ => false end.

Definition isStore (e : event) : bool :=
  match e with WriteFile _ | FilesCreate _ _ => true | _ => false end.

(** The authentication step of the handler: the world it leaves and the
    calls it makes. *)
Definition gate (v : variant) (w : world) : world * list event :=
  if isTestMode v then (w, []) else loadTokens w.

(** ** Sample inputs *)

Definition interestsSample : object :=
  {[ js "interests" := VString (js "a" ++ [LF] ++ js "- b" ++ [LF] ++ js " "
                                  ++ [LF] ++ js "c") ]}.

Definition nullSample : object :=
  {[ js "team" := VNull; js "name" := VNull ]}.

Definition academyOnly : dom := Elem (js "div") (Some (js "academy")) Leaf Leaf.

Definition zeroAcademy : object :=
  list_to_map
    [ (js "leadershipAcademy", VNumber 0); (js "storyText", VString (js "s"));
      (js "team", VString (js "t")); (js "storyLink", VString (js "l"));
      (js "previousMonths", VString (js "0"));
      (js "previousCourses", VString (js "0"));
      (js "previousTrips", VString (js "0"));
      (js "previousVolunteering", VString (js "0"));
      (js "previousTasks", VString (js "0")) ].

Definition chartDoc : dom :=
  Elem (js "body") None
    (Elem (js "div") (Some (js "chart-container"))
       (Elem (js "canvas") None Leaf Leaf) Leaf)
    Leaf.

Definition blankStory : object :=
  <[js "storyText" := VString (js " ")]> zeroAcademy.

Definition storyDoc : dom :=
  Elem (js "body") None
    (Elem (js "section") (Some (js "story"))
       (Elem (js "a") (Some (js "story-link")) Leaf Leaf) Leaf)
    Leaf.

Definition blankTeam : object :=
  <[js "team" := VString (js "  ")]>
    (<[js "position" := VString (js "Lead")]>
       (<[js "feadback" := VString (js "Well done")]> zeroAcademy)).

Definition teamDoc : dom :=
  Elem (js "body") None
    (Elem (js "div") (Some (js "team")) Leaf
       (Elem (js "div") (Some (js "position")) Leaf
          (Elem (js "hr") (Some (js "team-break-line")) Leaf
             (Elem (js "div") (Some (js "chart-container")) Leaf Leaf))))
    Leaf.

Definition clusterDoc : dom :=
  Elem (js "body") None
    (Elem (js "div") (Some (js "team")) Leaf
       (Elem (js "div") (Some (js "position")) Leaf
          (Elem (js "hr") (Some (js "team-break-line")) Leaf
             (Elem (js "div") (Some (js "feadback"))
                (Elem (js "p") None Leaf Leaf)
                (Elem (js "div") (Some (js "chart-container")) Leaf Leaf)))))
    Leaf.

Definition blankCourses : object :=
  <[js "previousCourses" := VString (js "   ")]> zeroAcademy.

Definition noVolunteering : object :=
  delete (js "previousVolunteering") zeroAcademy.

Definition zeroStory : object :=
  <[js "storyText" := VNumber 0]>
    (<[js "leadershipAcademy" := VString (js "2023 cohort")]> zeroAcademy).

Definition noTemplate : world :=
  {| tokens := Some (Credentials (js "token")); tokensFile := None;
     templateFile := None; now := 1700000000000 |}.

Definition anySurface : external :=
  {| launch := Ok tt;
     setContent := fun _ => Ok chartDoc;
     scrollHeight := fun _ => 2000%Z;
     pdf := fun _ _ => Ok [37; 80; 68; 70];
     writeFileSync := fun _ _ => Ok tt;
     filesCreate := fun _ _ _ => Ok (js "id", js "link") |}.

Definition nestedSample : object :=
  {[ js "name" := VString (js "{{age}}"); js "age" := VString (js "7") ]}.

Definition markupSample : object :=
  {[ js "name" := VString (js " <i>A&B</i> " ++ [LF] ++ js "- x ");
     js "team" := VString ([32; LF; 9]) ]}.

Definition readyWorld : world :=
  {| tokens := Some (Credentials (js "token")); tokensFile := None;
     templateFile := Some (js "<p>{{date}}</p>"); now := 1700000000000 |}.

Definition loggedOut : world :=
  {| tokens := None; tokensFile := None;
     templateFile := Some (js "<p>{{date}}</p>"); now := 1700000000000 |}.

Definition restarted : world :=
  {| tokens := None; tokensFile := Some (Credentials (js "token"));
     templateFile := Some (js "<p>{{date}}</p>"); now := 1700000000000 |}.

Definition failingPdf : external :=
  {| launch := Ok tt;
     setContent := fun _ => Ok chartDoc;
     scrollHeight := fun _ => 2000%Z;
     pdf := fun _ _ => Throw (SurfaceError (js "Printing failed"));
     writeFileSync := fun _ _ => Ok tt;
     filesCreate := fun _ _ _ => Ok (js "id", js "link") |}.

Definition filledSample : object :=
  <[js "leadershipAcademy" := VString (js "2023 cohort")]> zeroAcademy.

Definition filledBlankAcademy : object :=
  <[js "leadershipAcademy" := VString (js "  ")]> zeroAcademy.

Definition noLink : object :=
  <[js "storyLink" := VString []]> zeroAcademy.

Definition goodClient : oauthClient :=
  {| generateAuthUrl := js "https://accounts.google.com/o/oauth2/v2/auth";
     getToken := fun _ => Ok (Credentials (js "fresh"));
     writeTokens := fun _ => Ok tt |}.

Definition failingWrite : oauthClient :=
  {| generateAuthUrl := js "https://accounts.google.com/o/oauth2/v2/auth";
     getToken := fun _ => Ok (Credentials (js "fresh"));
     writeTokens := fun _ => Throw (StorageError (js "EACCES")) |}.

(** * Properties *)

(** ** Character classes *)

Lemma isWhiteSpace_range c :
  isWhiteSpace c = true -> c < 48 \/ 122 < c.
Proof.
  unfold isWhiteSpace. intros H.
  apply orb_true_iff in H as [H|H].
  - apply bool_decide_eq_true in H.
    repeat (apply elem_of_cons in H as [->|H]; [lia|]).
    by apply elem_of_nil in H.
  - apply andb_true_iff in H as [H1 H2].
    apply N.leb_le in H1. lia.
Qed.

Lemma isWordChar_range c :
  isWordChar c = true -> 48 <= c <= 122.
Proof.
  unfold isWordChar. intros H.
  repeat (apply orb_true_iff in H as [H|H]);
    try (apply andb_true_iff in H as [H1 H2];
         apply N.leb_le in H1; apply N.leb_le in H2; lia).
  apply N.eqb_eq in H. lia.
Qed.

Lemma word_not_space c : isWordChar c = true -> isWhiteSpace c = false.
Proof.
  intros Hw. apply isWordChar_range in Hw.
  destruct (isWhiteSpace c) eqn:Hs; [|done].
  apply isWhiteSpace_range in Hs. lia.
Qed.

Lemma space_not_word c : isWhiteSpace c = true -> isWordChar c = false.
Proof.
  intros Hs. destruct (isWordChar c) eqn:Hw; [|done].
  apply word_not_space in Hw. congruence.
Qed.

(** ** The matcher *)

Section RegexFacts.
Context {A : Type}.
Implicit Types (k : jsstring -> option A) (cls : N -> bool).

Lemma star_run cls k ws t r :
  Forall (fun c => cls c = true) ws -> stops cls t -> k t = Some r ->
  star cls k (ws ++ t) = Some r.
Proof.
  intros Hws Ht Hk. induction Hws as [|c ws Hc _ IH]; simpl.
  - destruct t as [|c t]; [done|]. simpl in *. by rewrite Ht.
  - by rewrite Hc, IH.
Qed.

Lemma star_inv cls k s r :
  star cls k s = Some r ->
  exists ws t, s = ws ++ t /\ Forall (fun c => cls c = true) ws /\ k t = Some r.
Proof.
  induction s as [|c s IH]; simpl; intros H.
  - by exists [], [].
  - destruct (cls c) eqn:Hc.
    + destruct (star cls k s) as [r'|] eqn:Hs.
      * injection H as ->.
        destruct (IH eq_refl) as (ws & t & -> & Hws & Hk).
        exists (c :: ws), t. repeat split; [by constructor | done].
      * by exists [], (c :: s).
    + by exists [], (c :: s).
Qed.

Lemma starCap_run cls (k : jsstring -> jsstring -> option A) key acc t r :
  Forall (fun c => cls c = true) key -> stops cls t ->
  k (acc ++ key) t = Some r ->
  starCap cls acc k (key ++ t) = Some r.
Proof.
  intros Hkey Ht. revert acc.
  induction Hkey as [|c key Hc _ IH]; simpl; intros acc Hk.
  - rewrite app_nil_r in Hk.
    destruct t as [|c t]; [done|]. simpl in *. by rewrite Ht.
  - rewrite Hc, IH; [done|]. by rewrite <- app_assoc.
Qed.

Lemma starCap_inv cls (k : jsstring -> jsstring -> option A) acc s r :
  starCap cls acc k s = Some r ->
  exists key t, s = key ++ t /\ Forall (fun c => cls c = true) key
                /\ k (acc ++ key) t = Some r.
Proof.
  revert acc. induction s as [|c s IH]; simpl; intros acc H.
  - exists [], []. repeat split; [constructor | by rewrite app_nil_r].
  - destruct (cls c) eqn:Hc.
    + destruct (starCap cls (acc ++ [c]) k s) as [r'|] eqn:Hs.
      * injection H as ->.
        destruct (IH _ Hs) as (key & t & -> & Hkey & Hk).
        exists (c :: key), t. rewrite <- app_assoc in Hk.
        repeat split; [by constructor | done].
      * exists [], (c :: s). repeat split; [constructor | by rewrite app_nil_r].
    + exists [], (c :: s). repeat split; [constructor | by rewrite app_nil_r].
Qed.
End RegexFacts.

Lemma tokenText_eq ws1 key ws2 rest :
  tokenText ws1 key ws2 ++ rest
  = LBRACE :: LBRACE :: ws1 ++ key ++ ws2 ++ RBRACE :: RBRACE :: rest.
Proof.
  unfold tokenText. change (js "{{") with [LBRACE; LBRACE].
  change (js "}}") with [RBRACE; RBRACE].
  by rewrite <- !app_assoc.
Qed.

(** The pattern matches exactly the tokens. *)
Lemma matchToken_token ws1 key ws2 rest :
  tokenParts ws1 key ws2 ->
  matchToken (tokenText ws1 key ws2 ++ rest) = Some (key, rest).
Proof.
  intros [H1 Hk Hne H2]. rewrite tokenText_eq.
  destruct key as [|c key]; [done|].
  apply Forall_cons in Hk as [Hc Hk].
  unfold matchToken. simpl.
  apply star_run; [done | by apply word_not_space |].
  simpl. rewrite Hc.
  assert (Hstop : stops isWordChar (ws2 ++ RBRACE :: RBRACE :: rest)).
  { destruct H2 as [|c2 ws2 Hc2 _]; simpl; [done | by apply space_not_word]. }
  apply starCap_run; [done | done |].
  by apply star_run.
Qed.

Lemma matchToken_inv s key rest :
  matchToken s = Some (key, rest) ->
  exists ws1 ws2, tokenParts ws1 key ws2 /\ s = tokenText ws1 key ws2 ++ rest.
Proof.
  unfold matchToken. intros H.
  destruct s as [|c1 [|c2 s]]; simpl in H; try done.
  - by destruct (c1 =? LBRACE).
  - destruct (c1 =? LBRACE) eqn:E1; [|done].
    destruct (c2 =? LBRACE) eqn:E2; [|done].
    apply N.eqb_eq in E1 as ->. apply N.eqb_eq in E2 as ->.
    apply star_inv in H as (ws1 & t & -> & H1 & H).
    destruct t as [|c t]; simpl in H; [done|].
    destruct (isWordChar c) eqn:Hc; [|done].
    apply starCap_inv in H as (key' & t' & -> & Hk & H).
    apply star_inv in H as (ws2 & t'' & -> & H2 & H).
    destruct t'' as [|d1 [|d2 t'']]; simpl in H; try done.
    + by destruct (d1 =? RBRACE).
    + destruct (d1 =? RBRACE) eqn:E3; [|done].
      destruct (d2 =? RBRACE) eqn:E4; [|done].
      apply N.eqb_eq in E3 as ->. apply N.eqb_eq in E4 as ->.
      injection H as <- <-.
      exists ws1, ws2. split.
      * split; [done | by constructor | done | done].
      * by rewrite tokenText_eq.
Qed.

(** ** The scan of [replace] *)

Lemma replaceAll_skip f n s :
  replaceAll f n s = replaceAll f 0 (drop n s).
Proof.
  revert n. induction s as [|c s IH]; intros [|n]; simpl; done.
Qed.

Lemma replaceAll_unfold f c s :
  replaceAll f 0 (c :: s)
  = match matchToken (c :: s) with
    | Some (key, rest) => f key ++ replaceAll f (length s - length rest)%nat s
    | None => c :: replaceAll f 0 s
    end.
Proof. reflexivity. Qed.

Lemma tokenText_length ws1 key ws2 :
  (2 <= length (tokenText ws1 key ws2))%nat.
Proof. unfold tokenText. rewrite length_app. simpl. lia. Qed.

(** At a match the callback's text is emitted and the scan goes on after
    the match. *)
Lemma replaceAll_match f s key rest :
  matchToken s = Some (key, rest) ->
  replaceAll f 0 s = f key ++ replaceAll f 0 rest.
Proof.
  intros H. destruct (matchToken_inv _ _ _ H) as (ws1 & ws2 & _ & Hs).
  destruct s as [|c s]; [done|].
  rewrite replaceAll_unfold, H. f_equal. rewrite replaceAll_skip. f_equal.
  rewrite tokenText_eq in Hs. injection Hs as _ ->.
  set (m := LBRACE :: ws1 ++ key ++ ws2 ++ [RBRACE; RBRACE]).
  replace (LBRACE :: ws1 ++ key ++ ws2 ++ RBRACE :: RBRACE :: rest)
    with (m ++ rest).
  - rewrite length_app.
    replace (length m + length rest - length rest)%nat with (length m) by lia.
    by rewrite drop_app_length.
  - unfold m. simpl. f_equal. by rewrite <- !app_assoc.
Qed.

(** Where the pattern does not match, one character is copied. *)
Lemma replaceAll_copy f c s :
  matchToken (c :: s) = None ->
  replaceAll f 0 (c :: s) = c :: replaceAll f 0 s.
Proof. intros H. by rewrite replaceAll_unfold, H. Qed.

Lemma matchToken_shorter s key rest :
  matchToken s = Some (key, rest) -> (length rest < length s)%nat.
Proof.
  intros H. destruct (matchToken_inv _ _ _ H) as (ws1 & ws2 & _ & ->).
  rewrite length_app. pose proof (tokenText_length ws1 key ws2). lia.
Qed.

Lemma matchToken_app p y key rp :
  matchToken p = Some (key, rp) ->
  matchToken (p ++ y) = Some (key, rp ++ y).
Proof.
  intros H. destruct (matchToken_inv _ _ _ H) as (ws1 & ws2 & Hp & ->).
  rewrite <- app_assoc. by apply matchToken_token.
Qed.

(** No character of a match after its two opening braces is a brace that
    opens. *)
Lemma prefix_without_open m p y r :
  Forall (fun c => c <> LBRACE) m ->
  p ++ LBRACE :: y = m ++ r ->
  exists rp, p = m ++ rp /\ r = rp ++ LBRACE :: y.
Proof.
  intros Hm. revert p. induction Hm as [|a m Ha _ IH]; intros p H.
  - by exists p.
  - destruct p as [|b p]; simpl in H.
    + injection H as <- _. done.
    + injection H as -> H. destruct (IH _ H) as (rp & -> & ->).
      by exists rp.
Qed.

Lemma token_tail_without_open ws1 key ws2 :
  tokenParts ws1 key ws2 ->
  Forall (fun c => c <> LBRACE) (ws1 ++ key ++ ws2 ++ [RBRACE; RBRACE]).
Proof.
  intros [H1 Hk _ H2]. rewrite !Forall_app. repeat split.
  - eapply Forall_impl; [exact H1|]. intros c Hc ->. done.
  - eapply Forall_impl; [exact Hk|]. intros c Hc ->. done.
  - eapply Forall_impl; [exact H2|]. intros c Hc ->. done.
  - repeat constructor; done.
Qed.

(** A match that starts before a [{{] ends before it. *)
Lemma matchToken_before_open p x key r :
  p <> [] ->
  matchToken (p ++ LBRACE :: LBRACE :: x) = Some (key, r) ->
  exists rp, r = rp ++ LBRACE :: LBRACE :: x /\ matchToken p = Some (key, rp).
Proof.
  intros Hp H.
  destruct (matchToken_inv _ _ _ H) as (ws1 & ws2 & Hparts & Hs).
  pose proof (token_tail_without_open _ _ _ Hparts) as Hm.
  rewrite tokenText_eq in Hs.
  replace (ws1 ++ key ++ ws2 ++ RBRACE :: RBRACE :: r)
    with ((ws1 ++ key ++ ws2 ++ [RBRACE; RBRACE]) ++ r) in Hs
    by (by rewrite <- !app_assoc).
  set (m := ws1 ++ key ++ ws2 ++ [RBRACE; RBRACE]) in *.
  assert (Hne : m <> []).
  { unfold m. destruct ws1; [|done]. simpl.
    destruct Hparts as [_ _ Hk _]. by destruct key. }
  destruct p as [|c1 [|c2 p]]; [done| |].
  - simpl in Hs. injection Hs as _ Hs.
    destruct m as [|a m]; [done|]. simpl in Hs. injection Hs as <- _.
    by apply Forall_cons in Hm as [? _].
  - simpl in Hs. injection Hs as -> -> Hs.
    destruct (prefix_without_open _ _ _ _ Hm Hs) as (rp & -> & ->).
    exists rp. split; [done|].
    replace (LBRACE :: LBRACE :: m ++ rp) with (tokenText ws1 key ws2 ++ rp).
    + by apply matchToken_token.
    + rewrite tokenText_eq. unfold m. by rewrite <- !app_assoc.
Qed.

(** The scan of the text before a [{{] does not depend on what follows. *)
Lemma replaceAll_app_open f pre x :
  replaceAll f 0 (pre ++ LBRACE :: LBRACE :: x)
  = replaceAll f 0 pre ++ replaceAll f 0 (LBRACE :: LBRACE :: x).
Proof.
  remember (length pre) as n eqn:Hn. revert pre Hn.
  induction n as [n IH] using lt_wf_ind. intros pre ->.
  destruct pre as [|c p]; [done|].
  destruct (matchToken ((c :: p) ++ LBRACE :: LBRACE :: x))
    as [[key r]|] eqn:Hm.
  - assert (Hne : c :: p <> []) by done.
    destruct (matchToken_before_open _ _ _ _ Hne Hm) as (rp & -> & Hp).
    rewrite (replaceAll_match _ _ _ _ Hm), (replaceAll_match _ _ _ _ Hp).
    rewrite <- app_assoc. f_equal.
    eapply IH; [|done]. by apply matchToken_shorter in Hp.
  - assert (Hp : matchToken (c :: p) = None).
    { destruct (matchToken (c :: p)) as [[key rp]|] eqn:Hp; [|done].
      apply (matchToken_app _ (LBRACE :: LBRACE :: x)) in Hp. congruence. }
    rewrite <- app_comm_cons in *.
    rewrite (replaceAll_copy _ _ _ Hm), (replaceAll_copy _ _ _ Hp).
    rewrite <- app_comm_cons. f_equal. eapply IH; [|done]. simpl. lia.
Qed.

(** A token, wherever it stands in the template, is replaced by what the
    callback returns for its name; the text around it is rendered on its
    own. *)
Lemma replaceTemplate_token data pre ws1 key ws2 rest :
  tokenParts ws1 key ws2 ->
  replaceTemplate (pre ++ tokenText ws1 key ws2 ++ rest) data
  = replaceTemplate pre data ++ replacer data key ++ replaceTemplate rest data.
Proof.
  intros Hparts. unfold replaceTemplate.
  pose proof (matchToken_token _ _ _ rest Hparts) as Hm.
  rewrite tokenText_eq in *.
  rewrite replaceAll_app_open. f_equal.
  by apply replaceAll_match.
Qed.

(** Text without an opening brace passes through unchanged. *)
Lemma replaceTemplate_plain data s :
  Forall (fun c => c <> LBRACE) s -> replaceTemplate s data = s.
Proof.
  unfold replaceTemplate. induction 1 as [|c s Hc _ IH]; [done|].
  rewrite replaceAll_copy; [by rewrite IH|].
  unfold matchToken. simpl. by apply N.eqb_neq in Hc as ->.
Qed.

(** ** [trim] and [split] *)

Lemma trimStart_nil_iff s :
  trimStart s = [] <-> Forall (fun c => isWhiteSpace c = true) s.
Proof.
  induction s as [|c s IH]; simpl.
  - split; [constructor | done].
  - destruct (isWhiteSpace c) eqn:Hc.
    + rewrite IH. split; [by constructor|]. by intros [_ ?]%Forall_cons.
    + split; [done|]. intros [? _]%Forall_cons. congruence.
Qed.

(** A string trims to the empty string exactly when it holds nothing but
    white space. *)
Lemma trim_nil_iff s :
  trim s = [] <-> Forall (fun c => isWhiteSpace c = true) s.
Proof.
  unfold trim, trimEnd. split.
  - intros H. apply (f_equal (@rev N)) in H. rewrite rev_involutive in H.
    simpl in H. apply trimStart_nil_iff in H. apply Forall_rev in H.
    rewrite rev_involutive in H.
    induction s as [|c s IH]; [done|]. simpl in H.
    destruct (isWhiteSpace c) eqn:Hc; [|done].
    constructor; [done | by apply IH].
  - intros H. apply trimStart_nil_iff in H. by rewrite H.
Qed.

Example trim_sample : trim (js "  a b" ++ [9; 13; 10]) = js "a b".
Proof. reflexivity. Qed.

(** The lines of a list field are never empty. *)
Lemma fieldLines_nonEmpty text line :
  In line (fieldLines text) -> line <> [].
Proof.
  unfold fieldLines. rewrite filter_In. intros [_ H] ->. done.
Qed.

Lemma split_no_sep sep s :
  Forall (fun c => c <> sep) s -> split sep s = [s].
Proof.
  induction 1 as [|c s Hc _ IH]; simpl; [done|].
  apply N.eqb_neq in Hc. by rewrite Hc, IH.
Qed.

Lemma split_app_sep sep a b :
  Forall (fun c => c <> sep) a ->
  split sep (a ++ sep :: b) = a :: split sep b.
Proof.
  induction 1 as [|c a Hc _ IH]; simpl.
  - by rewrite N.eqb_refl.
  - apply N.eqb_neq in Hc. by rewrite Hc, IH.
Qed.

Lemma split_not_nil sep s : split sep s <> [].
Proof.
  destruct s as [|c s]; simpl; [done|].
  destruct (c =? sep); [done|]. by destruct (split sep s).
Qed.

(** Joining the pieces with the separator gives the string back. *)
Lemma split_join sep s : join sep (split sep s) = s.
Proof.
  induction s as [|c s IH]; [done|]. simpl split.
  pose proof (split_not_nil sep s) as Hne.
  destruct (split sep s) as [|l ls] eqn:Hs; [done|].
  destruct (c =? sep) eqn:Hc.
  - apply N.eqb_eq in Hc as ->. simpl in *. by rewrite IH.
  - simpl in *. destruct ls; by rewrite <- IH.
Qed.

Lemma stripDash_prefix r : stripDash (js "- " ++ r) = r.
Proof. reflexivity. Qed.

(** ** The callback on absent, null and list values *)

Lemma replacer_undefined data key :
  get data key = VUndefined -> replacer data key = tokenText [] key [].
Proof. intros H. unfold replacer. by rewrite H. Qed.

Lemma replacer_list data key :
  key ∈ listFields -> get data key <> VUndefined ->
  replacer data key = listMarkup (fieldLines (ToString (get data key))).
Proof.
  intros Hk Hv. unfold replacer.
  rewrite bool_decide_eq_false_2 by done.
  rewrite bool_decide_eq_true_2 by done.
  destruct (fieldLines (ToString (get data key))) as [|l [|l' ls]]; done.
Qed.

Lemma replacer_plain data key :
  key ∉ listFields -> get data key <> VUndefined ->
  replacer data key = replaceNewlines (ToString (get data key)).
Proof.
  intros Hk Hv. unfold replacer.
  rewrite bool_decide_eq_false_2 by done.
  by rewrite bool_decide_eq_false_2 by done.
Qed.

(** C1, as the specification has it, does not hold: the blanks inside the
    braces of an unresolved token are not kept. *)
Lemma absent_token_blanks_lost :
  get (∅ : object) (js "name") = VUndefined
  /\ replaceTemplate (js "{{ name }}") ∅ = js "{{name}}"
  /\ replaceTemplate (js "{{ name }}") ∅ <> js "{{ name }}".
Proof. by vm_compute. Qed.

(** C1, amended: a token whose field reads as [undefined] is written back
    as the two braces around its name, without the blanks the template had
    inside the braces; a token written without blanks is thereby left as it
    was. *)
Theorem absent_token_normalised data pre ws1 key ws2 rest :
  tokenParts ws1 key ws2 ->
  get data key = VUndefined ->
  replaceTemplate (pre ++ tokenText ws1 key ws2 ++ rest) data
  = replaceTemplate pre data ++ tokenText [] key [] ++ replaceTemplate rest data.
Proof.
  intros Hparts Hv.
  by rewrite replaceTemplate_token, replacer_undefined.
Qed.

(** A token written without blanks, with nothing to put in its place, is
    left as it is. *)
Lemma absent_token_without_blanks data pre key rest :
  tokenParts [] key [] ->
  get data key = VUndefined ->
  replaceTemplate (pre ++ tokenText [] key [] ++ rest) data
  = replaceTemplate pre data ++ tokenText [] key [] ++ replaceTemplate rest data.
Proof.
  intros Hparts Hv. by rewrite replaceTemplate_token, replacer_undefined.
Qed.

Lemma name_token_parts : tokenParts [32] (js "name") [32].
Proof. split; [repeat constructor .. | done | repeat constructor]. Defined.

Lemma absent_token_normalised_witness :
  replaceTemplate (js "<h1>" ++ tokenText [32] (js "name") [32] ++ js "</h1>") ∅
  = replaceTemplate (js "<h1>") ∅ ++ tokenText [] (js "name") []
    ++ replaceTemplate (js "</h1>") ∅.
Proof.
  apply (absent_token_normalised ∅ (js "<h1>") [32] (js "name") [32] (js "</h1>")).
  - exact name_token_parts.
  - reflexivity.
Defined.

(** C3: a token that names one of [interests], [webinars], [team],
    [position], [trips], [tasks] and [leadershipAcademy], and whose field
    has a value, is replaced by markup made from the lines of the value
    turned into a string: the text is split at every line feed, each piece
    is trimmed, and the pieces that are then empty are dropped.  One line
    left gives [<p>LINE</p>]; two or more give [<ul>], then for each line
    [<li>], the line without one leading dash-space and trimmed again,
    [</li>], then [</ul>]; none gives [<ul></ul>]. *)
Theorem list_field_markup data pre ws1 key ws2 rest :
  tokenParts ws1 key ws2 ->
  key ∈ [js "interests"; js "webinars"; js "team"; js "position";
         js "trips"; js "tasks"; js "leadershipAcademy"] ->
  get data key <> VUndefined ->
  exists lines,
    lines = List.filter (fun line => match line with [] => false | _ => true end)
              (List.map trim (split 10 (ToString (get data key))))
    /\ replaceTemplate (pre ++ tokenText ws1 key ws2 ++ rest) data
       = replaceTemplate pre data
         ++ match lines with
            | [] => js "<ul></ul>"
            | [line] => js "<p>" ++ line ++ js "</p>"
            | _ =>
                js "<ul>"
                ++ concat
                     (List.map
                        (fun line =>
                           js "<li>"
                           ++ trim (match line with
                                    | 45 :: 32 :: r => r
                                    | _ => line
                                    end)
                           ++ js "</li>")
                        lines)
                ++ js "</ul>"
            end
         ++ replaceTemplate rest data.
Proof.
  intros Hparts Hk Hv. eexists. split; [reflexivity|].
  rewrite replaceTemplate_token by done.
  rewrite replacer_list by done. reflexivity.
Qed.

(** C10: a field that is [null] is not left as a token: the text [null]
    is put in its place, as a paragraph for a list field. *)
Theorem null_field_stringified data pre ws1 key ws2 rest :
  tokenParts ws1 key ws2 ->
  get data key = VNull ->
  replaceTemplate (pre ++ tokenText ws1 key ws2 ++ rest) data
  = replaceTemplate pre data
    ++ (if bool_decide (key ∈ listFields) then js "<p>null</p>" else js "null")
    ++ replaceTemplate rest data.
Proof.
  intros Hparts Hv. rewrite replaceTemplate_token by done.
  do 2 f_equal. case_bool_decide.
  - rewrite replacer_list by (done || by rewrite Hv). by rewrite Hv.
  - rewrite replacer_plain by (done || by rewrite Hv). by rewrite Hv.
Qed.

Lemma interests_token_parts : tokenParts [] (js "interests") [].
Proof. split; [repeat constructor .. | done | repeat constructor]. Defined.

Lemma list_field_markup_witness :
  get interestsSample (js "interests")
  = VString (js "a" ++ [10] ++ js "- b" ++ [10] ++ js " " ++ [10] ++ js "c")
  /\ replaceTemplate (js "<td>" ++ tokenText [] (js "interests") [] ++ js "</td>")
       interestsSample
     = js "<td>" ++ js "<ul><li>a</li><li>b</li><li>c</li></ul>" ++ js "</td>".
Proof.
  split; [reflexivity|].
  destruct (list_field_markup interestsSample (js "<td>") [] (js "interests")
              [] (js "</td>")) as (lines & Hlines & ->).
  - exact interests_token_parts.
  - by left.
  - vm_compute. discriminate.
  - rewrite Hlines. reflexivity.
Defined.

Example list_field_three_lines :
  replaceTemplate (js "<td>{{interests}}</td>") interestsSample
  = js "<td><ul><li>a</li><li>b</li><li>c</li></ul></td>".
Proof. by vm_compute. Qed.

Example list_field_single_line :
  replaceTemplate (js "{{ team }}") {[ js "team" := VString (js "solo") ]}
  = js "<p>solo</p>".
Proof. by vm_compute. Qed.

Example list_field_blank :
  replaceTemplate (js "{{team}}") {[ js "team" := VString (js "  ") ]}
  = js "<ul></ul>".
Proof. by vm_compute. Qed.

Example single_line_keeps_dash :
  replaceTemplate (js "{{team}}") {[ js "team" := VString (js "- solo") ]}
  = js "<p>- solo</p>".
Proof. by vm_compute. Qed.

Example plain_field_breaks :
  replaceTemplate (js "{{name}}")
    {[ js "name" := VString (js "x" ++ [LF] ++ js "y") ]}
  = js "x<br>y".
Proof. by vm_compute. Qed.

Example inherited_member_is_not_absent :
  replaceTemplate (js "{{toString}}") ∅
  = js "function toString() { [native code] }".
Proof. by vm_compute. Qed.

Lemma team_token_parts : tokenParts [32] (js "team") [].
Proof. split; [repeat constructor .. | done | repeat constructor]. Defined.

Lemma null_field_stringified_witness :
  replaceTemplate (js "a" ++ tokenText [32] (js "team") [] ++ js "b") nullSample
  = replaceTemplate (js "a") nullSample
    ++ (if bool_decide (js "team" ∈ listFields) then js "<p>null</p>"
        else js "null")
    ++ replaceTemplate (js "b") nullSample.
Proof.
  apply (null_field_stringified nullSample (js "a") [32] (js "team") [] (js "b")).
  - exact team_token_parts.
  - reflexivity.
Defined.

Example null_fields :
  replaceTemplate (js "{{team}}|{{name}}|{{age}}") nullSample
  = js "<p>null</p>|null|{{age}}".
Proof. by vm_compute. Qed.

(** ** [formatDate] *)

Lemma digits_without_dash s :
  Forall (fun c => isDigit c = true) s -> Forall (fun c => c <> 45) s.
Proof.
  intros H. eapply Forall_impl; [exact H|]. by intros c Hc ->.
Qed.

Lemma formatDate_parts y m d :
  Forall (fun c => c <> 45) y -> Forall (fun c => c <> 45) m ->
  Forall (fun c => c <> 45) d ->
  formatDate (VString (y ++ js "-" ++ m ++ js "-" ++ d))
  = Ok (d ++ js " / " ++ m ++ js " / " ++ y).
Proof.
  intros Hy Hm Hd. unfold formatDate.
  change (js "-") with [45]. simpl app.
  replace (ToBoolean (VString (y ++ 45 :: m ++ 45 :: d))) with true
    by (by destruct y).
  simpl negb. cbv iota.
  by rewrite (split_app_sep _ _ _ Hy), (split_app_sep _ _ _ Hm),
    (split_no_sep _ _ Hd).
Qed.

(** C7: an ISO date is rewritten day first, with [ / ] between the parts;
    the empty string and an absent (or null) date give the empty string. *)
Theorem formatDate_iso :
  (forall y m d, isoDate y m d ->
     formatDate (VString (y ++ js "-" ++ m ++ js "-" ++ d))
     = Ok (d ++ js " / " ++ m ++ js " / " ++ y))
  /\ formatDate (VString []) = Ok []
  /\ formatDate VUndefined = Ok []
  /\ formatDate VNull = Ok [].
Proof.
  split; [|done].
  intros y m d [[_ Hy] [_ Hm] [_ Hd]].
  apply formatDate_parts; by apply digits_without_dash.
Qed.

Lemma sample_isoDate : isoDate (js "2024") (js "03") (js "07").
Proof. split; (split; [reflexivity | repeat constructor]). Defined.

Lemma formatDate_iso_witness :
  formatDate (VString (js "2024" ++ js "-" ++ js "03" ++ js "-" ++ js "07"))
  = Ok (js "07" ++ js " / " ++ js "03" ++ js " / " ++ js "2024").
Proof.
  apply (proj1 formatDate_iso (js "2024") (js "03") (js "07")).
  exact sample_isoDate.
Defined.

Example formatDate_sample :
  formatDate (VString (js "2024-03-07")) = Ok (js "07 / 03 / 2024").
Proof. by vm_compute. Qed.

Example formatDate_short_input :
  formatDate (VString (js "2024")) = Ok (js "undefined / undefined / 2024").
Proof. by vm_compute. Qed.

(** ** Removing elements *)

Lemma countId_remove_le i el d : (countId i (remove el d) <= countId i d)%nat.
Proof.
  revert el. induction d as [|t a c IHc s IHs]; intros el; [simpl; lia|].
  destruct el as [|[] el]; simpl.
  - lia.
  - specialize (IHc el). lia.
  - specialize (IHs el). lia.
Qed.

(** The element found by its [id] is counted no more once removed. *)
Lemma countId_remove_found i el d :
  getElementById d i = Some el ->
  (countId i (remove el d) < countId i d)%nat.
Proof.
  revert el. induction d as [|t a c IHc s IHs]; intros el; [done|].
  simpl. destruct (bool_decide (a = Some i)) eqn:Ha.
  - intros [= <-]. simpl. lia.
  - destruct (getElementById c i) as [p|] eqn:Hc.
    + intros [= <-]. simpl. rewrite Ha. specialize (IHc _ eq_refl). lia.
    + destruct (getElementById s i) as [p|] eqn:Hs; [|done].
      intros [= <-]. simpl. rewrite Ha. specialize (IHs _ eq_refl). lia.
Qed.

Lemma getElementById_None_iff i d :
  getElementById d i = None <-> countId i d = 0%nat.
Proof.
  induction d as [|t a c IHc s IHs]; simpl; [done|].
  destruct (bool_decide (a = Some i)); [split; [done | lia]|].
  rewrite Nat.add_0_l, Nat.eq_add_0, <- IHc, <- IHs.
  clear IHc IHs.
  destruct (getElementById c i), (getElementById s i); intuition congruence.
Qed.

Lemma countId_removeIfPresent_le i j d :
  (countId i (removeIfPresent j d) <= countId i d)%nat.
Proof.
  unfold removeIfPresent. destruct (getElementById d j); [|done].
  apply countId_remove_le.
Qed.

Lemma countId_removeIfPresent i d :
  (countId i (removeIfPresent i d) <= pred (countId i d))%nat.
Proof.
  unfold removeIfPresent. destruct (getElementById d i) as [el|] eqn:H.
  - apply countId_remove_found in H. lia.
  - apply getElementById_None_iff in H. lia.
Qed.

Lemma removeAll_app ids1 ids2 d :
  removeAll (ids1 ++ ids2) d = removeAll ids2 (removeAll ids1 d).
Proof. apply foldl_app. Qed.

Lemma countId_removeAll_le i ids d :
  (countId i (removeAll ids d) <= countId i d)%nat.
Proof.
  revert d. induction ids as [|j ids IH]; intros d; simpl; [done|].
  etrans; [apply IH|]. apply countId_removeIfPresent_le.
Qed.

(** After a run of removals that names [i], an element with that [id] is
    gone; none is left if there was at most one. *)
Lemma countId_removeAll_elem i ids d :
  i ∈ ids -> (countId i (removeAll ids d) <= pred (countId i d))%nat.
Proof.
  revert d. induction ids as [|j ids IH]; intros d Hi.
  - by apply elem_of_nil in Hi.
  - simpl. apply elem_of_cons in Hi as [->|Hi].
    + etrans; [apply countId_removeAll_le|]. apply countId_removeIfPresent.
    + etrans; [by apply IH|].
      pose proof (countId_removeIfPresent_le i j d). lia.
Qed.

Lemma removeAll_gone i ids d :
  i ∈ ids -> (countId i d <= 1)%nat ->
  getElementById (removeAll ids d) i = None.
Proof.
  intros Hi Hd. apply getElementById_None_iff.
  pose proof (countId_removeAll_elem i ids d Hi). lia.
Qed.

(** ** The conditions of the pruner *)

Lemma isEmptyText_safe v :
  trimSafe v = true -> isEmptyText v = Ok (emptyText v).
Proof.
  unfold isEmptyText, emptyText, trimSafe.
  destruct (ToBoolean v) eqn:Hv; simpl; [|done]. by destruct v.
Qed.

Lemma isEmptyText_unsafe v :
  trimSafe v = false -> isEmptyText v = Throw TypeError.
Proof.
  unfold isEmptyText, trimSafe.
  destruct (ToBoolean v) eqn:Hv; simpl; [|done]. by destruct v.
Qed.

Lemma blank_emptyText v : blank v -> trimSafe v = true /\ emptyText v = true.
Proof.
  intros [->|[->|(s & -> & Hs)]]; [done..|].
  unfold trimSafe, emptyText. simpl.
  rewrite bool_decide_eq_true_2 by done. by rewrite !orb_true_r.
Qed.

Lemma isEmptyPrevious_blank v : isEmptyPrevious v = true <-> blank v.
Proof.
  unfold isEmptyPrevious, blank. rewrite !orb_true_iff, !bool_decide_eq_true.
  split.
  - intros [[?|?]|H]; [by left | by right; left |].
    destruct v; try done. apply bool_decide_eq_true in H. eauto.
  - intros [?|[?|(s & -> & Hs)]]; [by left; left | by left; right |].
    right. by apply bool_decide_eq_true.
Qed.

Lemma hasEmptyPreviousData_iff data :
  hasEmptyPreviousData data = true
  <-> exists k, k ∈ previousFields /\ blank (get data k).
Proof.
  unfold hasEmptyPreviousData. rewrite existsb_exists. split.
  - intros (k & Hk & H). exists k. split; [by apply list_elem_of_In|].
    by apply isEmptyPrevious_blank.
  - intros (k & Hk & H). exists k. split; [by apply list_elem_of_In|].
    by apply isEmptyPrevious_blank.
Qed.

(** The text-gated blocks run to their end exactly on the field maps whose
    text fields are falsy or strings, and then amount to a run of removals. *)
Lemma pruneSections_removeAll v data document :
  runsToEnd v data ->
  pruneSections v data document = Ok (removeAll (sectionIds v data) document).
Proof.
  unfold runsToEnd, textFields, pruneSections, sectionIds.
  unfold pruneAcademy, pruneStory, pruneTeam, pruneStoryLink.
  destruct v as [|t]; simpl; rewrite !Forall_cons.
  - intros (Ha & Ht & Hl & _).
    rewrite !isEmptyText_safe by done. simpl.
    rewrite !removeAll_app.
    destruct (emptyText _), (emptyText _), (emptyText _); done.
  - intros (Ha & Hs & Ht & Hl & _).
    rewrite (isEmptyText_safe _ Ha). simpl.
    rewrite (isEmptyText_safe _ Hs). simpl.
    rewrite (isEmptyText_safe _ Ht). simpl.
    rewrite (isEmptyText_safe _ Hl). simpl.
    rewrite !removeAll_app.
    destruct (emptyText _), (emptyText _), (emptyText _), (emptyText _); done.
Qed.

Lemma pruneSections_throws v data document :
  ~ runsToEnd v data -> pruneSections v data document = Throw TypeError.
Proof.
  unfold runsToEnd, textFields, pruneSections.
  unfold pruneAcademy, pruneStory, pruneTeam, pruneStoryLink.
  intros H.
  destruct (trimSafe (get data (js "leadershipAcademy"))) eqn:Ha;
    [rewrite (isEmptyText_safe _ Ha) | by rewrite (isEmptyText_unsafe _ Ha)].
  destruct (trimSafe (get data (js "team"))) eqn:Ht;
    [rewrite (isEmptyText_safe _ Ht) | rewrite (isEmptyText_unsafe _ Ht)];
  (destruct (trimSafe (get data (js "storyLink"))) eqn:Hl;
    [rewrite (isEmptyText_safe _ Hl) | rewrite (isEmptyText_unsafe _ Hl)]);
  (destruct v as [|t];
    [|destruct (trimSafe (get data (js "storyText"))) eqn:Hs;
      [rewrite (isEmptyText_safe _ Hs) | rewrite (isEmptyText_unsafe _ Hs)]]);
  try done;
  destruct H; by repeat constructor.
Qed.

Lemma prune_removeAll v data document :
  runsToEnd v data ->
  prune v data document = Ok (removeAll (removedIds v data) document).
Proof.
  intros H. unfold prune, removedIds, pruneChart.
  rewrite (pruneSections_removeAll _ _ _ H). simpl.
  rewrite removeAll_app. by destruct (hasEmptyPreviousData data).
Qed.

(** The callback ends normally exactly when no text field makes [trim]
    fail. *)
Lemma prune_total v data document :
  runsToEnd v data <-> exists document', prune v data document = Ok document'.
Proof.
  split.
  - intros H. eexists. by apply prune_removeAll.
  - intros [d' H]. destruct (decide (runsToEnd v data)) as [|Hn]; [done|].
    unfold prune in H. by rewrite (pruneSections_throws _ _ _ Hn) in H.
Qed.

Lemma prune_removes v data document i :
  runsToEnd v data -> i ∈ removedIds v data ->
  exists document', prune v data document = Ok document'
    /\ (countId i document' <= pred (countId i document))%nat
    /\ ((countId i document <= 1)%nat -> getElementById document' i = None).
Proof.
  intros H Hi. eexists. split; [by apply prune_removeAll|]. split.
  - by apply countId_removeAll_elem.
  - by apply removeAll_gone.
Qed.

(** ** The sections *)

(** C2, as the specification has it, does not hold: for the academy (and
    likewise the story, team and story-link) condition the number 0 counts
    as blank, and the section is removed. *)
Lemma numeric_zero_removes_academy :
  blankSpec (VNumber 0) = false
  /\ isEmptyText (get zeroAcademy (js "leadershipAcademy")) = Ok true
  /\ getElementById academyOnly (js "academy") = Some []
  /\ prune IndexJs zeroAcademy academyOnly = Ok Leaf
  /\ prune (Part000 false) zeroAcademy academyOnly = Ok Leaf.
Proof. by vm_compute. Qed.

Lemma isEmptyText_zero_or_blank v :
  v = VNumber 0 \/ blank v -> trimSafe v = true /\ emptyText v = true.
Proof. intros [->|Hb]; [done | by apply blank_emptyText]. Qed.

Lemma isEmptyText_filled s : trim s <> [] -> isEmptyText (VString s) = Ok false.
Proof.
  intros Hs. unfold isEmptyText. destruct s as [|c s]; [done|]. simpl.
  by rewrite bool_decide_eq_false_2.
Qed.

Lemma removesWhenEmpty_intro block field ids :
  (forall data document,
     block data document
     = (b ← isEmptyText (get data field);
        Ok (if b : bool then removeAll ids document else document))) ->
  removesWhenEmpty block field ids.
Proof.
  intros Hblock data document. rewrite Hblock. split.
  - intros H. apply isEmptyText_zero_or_blank in H as [Hs He].
    by rewrite (isEmptyText_safe _ Hs), He.
  - intros (s & -> & Hs). by rewrite isEmptyText_filled.
Qed.

(** C2, amended: the chart condition holds exactly for [undefined], [null]
    and strings that trim to the empty string, so the chart container goes
    when one of the five previous-period fields is one of these and stays
    when each holds the number 0 or a string such as "0".  The blocks of the
    academy ([leadershipAcademy]), the story ([storyText], in [part_000]),
    the team cluster ([team]) and the story link ([storyLink]) remove their
    elements when the field is [undefined], [null] or a string that trims to
    the empty string, and leave them when it is a string with more in it,
    "0" included; they remove them as well when the field is the number 0,
    and a callback that runs to its end has then removed the section. *)
Theorem blank_conditions :
  (forall v, isEmptyPrevious v = true
     <-> v = VUndefined \/ v = VNull \/ exists s, v = VString s /\ trim s = [])
  /\ (forall data document,
        ((exists k,
            k ∈ [js "previousMonths"; js "previousCourses";
                 js "previousTrips"; js "previousVolunteering";
                 js "previousTasks"]
            /\ (get data k = VUndefined \/ get data k = VNull
                \/ exists s, get data k = VString s /\ trim s = [])) ->
           pruneChart data document
           = removeIfPresent (js "chart-container") document)
        /\ ((forall k,
               k ∈ [js "previousMonths"; js "previousCourses";
                    js "previousTrips"; js "previousVolunteering";
                    js "previousTasks"] ->
               get data k = VNumber 0
               \/ exists s, get data k = VString s /\ trim s <> []) ->
            pruneChart data document = document))
  /\ trim (js "0") = js "0"
  /\ removesWhenEmpty pruneAcademy (js "leadershipAcademy") [js "academy"]
  /\ (forall t,
        removesWhenEmpty (pruneStory (Part000 t)) (js "storyText") [js "story"])
  /\ removesWhenEmpty pruneTeam (js "team")
       [js "team"; js "position"; js "team-break-line"; js "feadback"]
  /\ removesWhenEmpty pruneStoryLink (js "storyLink") [js "story-link"]
  /\ (forall v data document,
        runsToEnd v data ->
        exists document', prune v data document = Ok document'
          /\ Forall
               (fun '(field, ids) =>
                  get data field = VNumber 0 \/ get data field = VUndefined
                  \/ get data field = VNull
                  \/ (exists s, get data field = VString s /\ trim s = []) ->
                  Forall
                    (fun i =>
                       (countId i document' <= pred (countId i document))%nat
                       /\ ((countId i document <= 1)%nat ->
                           getElementById document' i = None))
                    ids)
               ([ (js "leadershipAcademy", [js "academy"]);
                  (js "team", [js "team"; js "position";
                               js "team-break-line"; js "feadback"]);
                  (js "storyLink", [js "story-link"]) ]
                ++ match v with
                   | Part000 _ => [(js "storyText", [js "story"])]
                   | IndexJs => []
                   end)).
Proof.
  split; [exact isEmptyPrevious_blank|].
  split.
  { intros data document. unfold pruneChart.
    pose proof (hasEmptyPreviousData_iff data) as Hiff.
    unfold previousFields, blank in Hiff. split.
    - intros Hb. apply Hiff in Hb. by rewrite Hb.
    - intros Hk. destruct (hasEmptyPreviousData data); [|done].
      destruct (proj1 Hiff eq_refl) as (k & Hin & Hb).
      destruct (Hk k Hin) as [Hz|(s & Hs & Hne)]; rewrite ?Hz, ?Hs in Hb;
        destruct Hb as [?|[?|(s' & [= <-] & Hs')]]; done. }
  split; [done|].
  split; [by apply removesWhenEmpty_intro|].
  split; [intros t; by apply removesWhenEmpty_intro|].
  split; [by apply removesWhenEmpty_intro|].
  split; [by apply removesWhenEmpty_intro|].
  intros v data document H.
  exists (removeAll (removedIds v data) document).
  split; [by apply prune_removeAll|].
  assert (Hrem : forall i, i ∈ removedIds v data ->
            (countId i (removeAll (removedIds v data) document)
             <= pred (countId i document))%nat
            /\ ((countId i document <= 1)%nat ->
                getElementById (removeAll (removedIds v data) document) i
                = None)).
  { intros i Hi.
    split; [by apply countId_removeAll_elem | by apply removeAll_gone]. }
  assert (Hempty : forall field,
            get data field = VNumber 0 \/ get data field = VUndefined
            \/ get data field = VNull
            \/ (exists s, get data field = VString s /\ trim s = []) ->
            emptyText (get data field) = true).
  { intros field [Hz|Hb];
      [by rewrite Hz | by apply (blank_emptyText _ Hb)]. }
  apply Forall_app. split.
  - repeat apply Forall_cons_2; [..|by apply Forall_nil];
      intros He; apply Hempty in He;
      apply Forall_forall; intros i Hi; apply Hrem;
      unfold removedIds, sectionIds; rewrite He, !elem_of_app.
    + left. by left.
    + left. right. right. by left.
    + left. right. right. right. done.
  - destruct v as [|t]; [by apply Forall_nil|].
    apply Forall_cons_2; [|by apply Forall_nil].
    intros He; apply Hempty in He.
    apply Forall_forall; intros i Hi; apply Hrem.
    unfold removedIds, sectionIds. rewrite He, !elem_of_app.
    left. right. by left.
Qed.

Lemma zeroStory_runsToEnd : runsToEnd (Part000 false) zeroStory.
Proof. repeat constructor. Defined.

Lemma blank_conditions_witness :
  runsToEnd (Part000 false) zeroStory
  /\ get zeroStory (js "storyText") = VNumber 0
  /\ pruneStory (Part000 false) zeroStory storyDoc
     = Ok (Elem (js "body") None Leaf Leaf)
  /\ prune (Part000 false) zeroStory storyDoc
     = Ok (Elem (js "body") None Leaf Leaf).
Proof.
  destruct blank_conditions as (_ & _ & _ & _ & Hstory & _ & _ & Hprune).
  split; [exact zeroStory_runsToEnd|]. split; [reflexivity|]. split.
  - rewrite (proj1 (Hstory false zeroStory storyDoc)); [reflexivity|].
    by left.
  - destruct (Hprune (Part000 false) zeroStory storyDoc zeroStory_runsToEnd)
      as (document' & Hd & _).
    rewrite Hd. vm_compute in Hd. by injection Hd as <-.
Defined.

(** C4: when the callback runs to its end, its last block removes the
    chart container exactly when one of [previousMonths], [previousCourses],
    [previousTrips], [previousVolunteering] and [previousTasks] is
    [undefined], [null] or a string that trims to the empty string; with
    "0" in all five the document is left as the earlier blocks left it. *)
Theorem chart_container_removed_iff v data document :
  runsToEnd v data ->
  exists d4, pruneSections v data document = Ok d4
    /\ ((exists k,
           k ∈ [js "previousMonths"; js "previousCourses"; js "previousTrips";
                js "previousVolunteering"; js "previousTasks"]
           /\ (get data k = VUndefined \/ get data k = VNull
               \/ exists s, get data k = VString s /\ trim s = [])) ->
          prune v data document
          = Ok (removeIfPresent (js "chart-container") d4)
          /\ (countId (js "chart-container")
                (removeIfPresent (js "chart-container") d4)
              <= pred (countId (js "chart-container") document))%nat
          /\ ((countId (js "chart-container") document <= 1)%nat ->
              getElementById (removeIfPresent (js "chart-container") d4)
                (js "chart-container") = None))
    /\ (~ (exists k,
             k ∈ [js "previousMonths"; js "previousCourses";
                  js "previousTrips"; js "previousVolunteering";
                  js "previousTasks"]
             /\ (get data k = VUndefined \/ get data k = VNull
                 \/ exists s, get data k = VString s /\ trim s = [])) ->
          prune v data document = Ok d4)
    /\ (get data (js "previousMonths") = VString (js "0") ->
        get data (js "previousCourses") = VString (js "0") ->
        get data (js "previousTrips") = VString (js "0") ->
        get data (js "previousVolunteering") = VString (js "0") ->
        get data (js "previousTasks") = VString (js "0") ->
        prune v data document = Ok d4).
Proof.
  intros H. exists (removeAll (sectionIds v data) document).
  split; [by apply pruneSections_removeAll|].
  unfold prune. rewrite (pruneSections_removeAll _ _ _ H). simpl.
  unfold pruneChart.
  pose proof (hasEmptyPreviousData_iff data) as Hiff.
  unfold previousFields, blank in Hiff.
  assert (Hle : (countId (js "chart-container")
                   (removeIfPresent (js "chart-container")
                      (removeAll (sectionIds v data) document))
                 <= pred (countId (js "chart-container") document))%nat).
  { etrans; [apply countId_removeIfPresent|].
    pose proof (countId_removeAll_le (js "chart-container")
                  (sectionIds v data) document). lia. }
  split; [|split].
  - intros Hb. apply Hiff in Hb. rewrite Hb. split; [done|]. split; [done|].
    intros H1. apply getElementById_None_iff. lia.
  - intros Hn. destruct (hasEmptyPreviousData data); [|done].
    destruct Hn. by apply Hiff.
  - intros H1 H2 H3 H4 H5.
    destruct (hasEmptyPreviousData data); [|done].
    destruct (proj1 Hiff eq_refl) as (k & Hk & Hb).
    repeat (apply elem_of_cons in Hk as [->|Hk];
            [rewrite ?H1, ?H2, ?H3, ?H4, ?H5 in Hb;
             destruct Hb as [?|[?|(s & [= <-] & Hs)]]; done|]).
    by apply elem_of_nil in Hk.
Qed.

(** C5, as the specification has it, does not hold: the callback of
    [index.js] has no story block, and leaves the story element where it
    is when [storyText] is blank. *)
Lemma story_kept_by_index_js :
  get (∅ : object) (js "storyText") = VUndefined
  /\ getElementById (Elem (js "div") (Some (js "story")) Leaf Leaf) (js "story")
     = Some []
  /\ prune IndexJs ∅ (Elem (js "div") (Some (js "story")) Leaf Leaf)
     = Ok (Elem (js "div") (Some (js "story")) Leaf Leaf).
Proof. by vm_compute. Qed.

(** C5, amended: in the variant that has the story block ([part_000]), a
    callback that runs to its end with a blank [storyText] removes the
    story element; the callback of [index.js] has no such block. *)
Theorem story_removed_in_part_000 t data document :
  runsToEnd (Part000 t) data ->
  blank (get data (js "storyText")) ->
  (exists document', prune (Part000 t) data document = Ok document'
     /\ (countId (js "story") document'
         <= pred (countId (js "story") document))%nat
     /\ ((countId (js "story") document <= 1)%nat ->
         getElementById document' (js "story") = None))
  /\ (forall d, pruneStory IndexJs data d = Ok d).
Proof.
  intros H Hb. split; [|done].
  apply prune_removes; [done|].
  unfold removedIds, sectionIds.
  apply blank_emptyText in Hb as [_ ->].
  rewrite !elem_of_app. left. right. left. by left.
Qed.

(** C6: with a blank [team] the team block removes the elements [team],
    [position], [team-break-line] and [feadback], each if it is there; a
    callback that runs to its end then leaves one element fewer of each of
    these four [id]s (none, when it was the only one), whatever [position],
    [feadback] and the other fields hold. *)
Theorem team_cluster_removed v data document :
  runsToEnd v data ->
  get data (js "team") = VUndefined \/ get data (js "team") = VNull
  \/ (exists s, get data (js "team") = VString s /\ trim s = []) ->
  pruneTeam data document
  = Ok (removeIfPresent (js "feadback")
          (removeIfPresent (js "team-break-line")
             (removeIfPresent (js "position")
                (removeIfPresent (js "team") document))))
  /\ exists document', prune v data document = Ok document'
       /\ Forall (fun i =>
                   (countId i document' <= pred (countId i document))%nat
                   /\ ((countId i document <= 1)%nat ->
                       getElementById document' i = None))
            [js "team"; js "position"; js "team-break-line"; js "feadback"].
Proof.
  intros H Hb. change (blank (get data (js "team"))) in Hb.
  pose proof (blank_emptyText _ Hb) as [Hs He]. split.
  { unfold pruneTeam. rewrite (isEmptyText_safe _ Hs), He. done. }
  exists (removeAll (removedIds v data) document).
  split; [by apply prune_removeAll|].
  apply Forall_forall. intros i Hi.
  assert (Hin : i ∈ removedIds v data).
  { unfold removedIds, sectionIds. rewrite He.
    rewrite !elem_of_app. left. right. right. by left. }
  split; [by apply countId_removeAll_elem | by apply removeAll_gone].
Qed.

Lemma zeroAcademy_runsToEnd : runsToEnd IndexJs zeroAcademy.
Proof. repeat constructor. Defined.

Lemma blankCourses_runsToEnd : runsToEnd IndexJs blankCourses.
Proof. repeat constructor. Defined.

Lemma chart_container_removed_iff_witness :
  runsToEnd IndexJs blankCourses
  /\ prune IndexJs blankCourses chartDoc = Ok (Elem (js "body") None Leaf Leaf)
  /\ prune IndexJs zeroAcademy chartDoc
     = Ok (Elem (js "body") None
             (Elem (js "div") (Some (js "chart-container"))
                (Elem (js "canvas") None Leaf Leaf) Leaf)
             Leaf).
Proof.
  split; [exact blankCourses_runsToEnd|]. split.
  - destruct (chart_container_removed_iff IndexJs blankCourses chartDoc
                blankCourses_runsToEnd) as (d4 & Hd4 & Hgone & _).
    destruct Hgone as [-> _].
    + exists (js "previousCourses"). split; [by right; left|].
      right. right. exists (js "   "). by split.
    + vm_compute in Hd4. by injection Hd4 as <-.
  - destruct (chart_container_removed_iff IndexJs zeroAcademy chartDoc
                zeroAcademy_runsToEnd) as (d4 & Hd4 & _ & _ & ->);
      try reflexivity.
    vm_compute in Hd4. by injection Hd4 as <-.
Defined.

Example chart_container_removed_when_one_is_blank :
  prune IndexJs (<[js "previousTrips" := VString (js "   ")]> zeroAcademy)
    chartDoc
  = Ok (Elem (js "body") None Leaf Leaf)
  /\ prune IndexJs (<[js "previousTasks" := VNull]> zeroAcademy) chartDoc
     = Ok (Elem (js "body") None Leaf Leaf)
  /\ prune IndexJs (delete (js "previousMonths") zeroAcademy) chartDoc
     = Ok (Elem (js "body") None Leaf Leaf)
  /\ prune IndexJs (<[js "previousTrips" := VNumber 0]> zeroAcademy) chartDoc
     = Ok chartDoc.
Proof. by vm_compute. Qed.

Example truthy_number_stops_the_callback :
  prune IndexJs (<[js "team" := VNumber 5]> zeroAcademy) chartDoc
  = Throw TypeError.
Proof. by vm_compute. Qed.

Lemma blankStory_runsToEnd : runsToEnd (Part000 true) blankStory.
Proof. repeat constructor. Defined.

Lemma blankStory_blank : blank (get blankStory (js "storyText")).
Proof. right. right. exists (js " "). split; reflexivity. Defined.

Lemma story_removed_in_part_000_witness :
  exists document', prune (Part000 true) blankStory storyDoc = Ok document'
    /\ (countId (js "story") document'
        <= pred (countId (js "story") storyDoc))%nat
    /\ ((countId (js "story") storyDoc <= 1)%nat ->
        getElementById document' (js "story") = None).
Proof.
  exact (proj1 (story_removed_in_part_000 true blankStory storyDoc
                  blankStory_runsToEnd blankStory_blank)).
Defined.

Example story_variants :
  prune (Part000 false) blankStory storyDoc = Ok (Elem (js "body") None Leaf Leaf)
  /\ prune IndexJs blankStory storyDoc = Ok storyDoc.
Proof. by vm_compute. Qed.

Lemma blankTeam_runsToEnd : runsToEnd IndexJs blankTeam.
Proof. repeat constructor. Defined.

Lemma blankTeam_blank : blank (get blankTeam (js "team")).
Proof. right. right. exists (js "  "). split; reflexivity. Defined.

Lemma team_cluster_removed_witness :
  get blankTeam (js "position") = VString (js "Lead")
  /\ get blankTeam (js "feadback") = VString (js "Well done")
  /\ pruneTeam blankTeam clusterDoc
     = Ok (Elem (js "body") None
             (Elem (js "div") (Some (js "chart-container")) Leaf Leaf) Leaf)
  /\ prune IndexJs blankTeam clusterDoc
     = Ok (Elem (js "body") None
             (Elem (js "div") (Some (js "chart-container")) Leaf Leaf) Leaf).
Proof.
  destruct (team_cluster_removed IndexJs blankTeam clusterDoc
              blankTeam_runsToEnd)
    as (Hblock & document' & Hprune & _).
  - right. right. exists (js "  "). by split.
  - split; [reflexivity|]. split; [reflexivity|]. split.
    + rewrite Hblock. reflexivity.
    + rewrite Hprune. vm_compute in Hprune. by injection Hprune as <-.
Defined.

Example team_cluster_sample :
  prune IndexJs blankTeam teamDoc
  = Ok (Elem (js "body") None
          (Elem (js "div") (Some (js "chart-container")) Leaf Leaf) Leaf).
Proof. by vm_compute. Qed.

(** ** Page size *)

Lemma roundHalfEven_near m :
  (m - (1 # 2) <= inject_Z (roundHalfEven m) <= m + (1 # 2))%Q.
Proof.
  unfold roundHalfEven.
  pose proof (Qfloor_le m) as Hlo. pose proof (Qlt_floor m) as Hhi.
  rewrite inject_Z_plus in Hhi. change (inject_Z 1) with 1%Q in Hhi.
  destruct (Qcompare (m - inject_Z (Qfloor m)) (1 # 2)) eqn:E.
  - apply Qeq_alt in E.
    destruct (Z.even (Qfloor m)); rewrite ?inject_Z_plus;
      change (inject_Z 1) with 1%Q; lra.
  - apply Qlt_alt in E. lra.
  - apply Qgt_alt in E. rewrite inject_Z_plus. change (inject_Z 1) with 1%Q. lra.
Qed.

Lemma two_power_pos e : (0 < 2 ^ e)%Q.
Proof. by apply Qpower_0_lt. Qed.

Lemma two_power_succ e : (2 ^ (e + 1) == 2 * 2 ^ e)%Q.
Proof. rewrite Qpower_plus by done. change (2 ^ 1)%Q with 2%Q. lra. Qed.

Lemma two_power_Z e : (0 <= e)%Z -> (inject_Z (2 ^ e) == 2 ^ e)%Q.
Proof. intros H. by rewrite Zpower_Qpower. Qed.

Lemma ilog2_spec q : (0 < q)%Q -> (2 ^ ilog2 q <= q < 2 ^ (ilog2 q + 1))%Q.
Proof.
  intros Hq. unfold ilog2.
  destruct q as [n d]. simpl Qnum. simpl Qden.
  assert (Hn : (0 < n)%Z).
  { unfold Qlt in Hq. simpl in Hq. lia. }
  pose proof (Z.log2_spec n Hn) as [Hn1 Hn2].
  pose proof (Z.log2_spec (Zpos d) eq_refl) as [Hd1 Hd2].
  pose proof (Z.log2_nonneg n) as Ha.
  pose proof (Z.log2_nonneg (Zpos d)) as Hb.
  set (a := Z.log2 n) in *. set (b := Z.log2 (Zpos d)) in *.
  assert (Hnd : (n # d == inject_Z n / inject_Z (Zpos d))%Q).
  { by rewrite Qmake_Qdiv. }
  assert (Hdpos : (0 < inject_Z (Zpos d))%Q) by done.
  assert (HA1 : (2 ^ a <= inject_Z n)%Q).
  { rewrite <- two_power_Z by done. by rewrite <- Zle_Qle. }
  assert (HA2 : (inject_Z n < 2 * 2 ^ a)%Q).
  { rewrite <- two_power_succ, <- two_power_Z by lia. rewrite <- Zlt_Qlt.
    by rewrite <- Z.add_1_r in Hn2. }
  assert (HB1 : (2 ^ b <= inject_Z (Zpos d))%Q).
  { rewrite <- two_power_Z by done. by rewrite <- Zle_Qle. }
  assert (HB2 : (inject_Z (Zpos d) < 2 * 2 ^ b)%Q).
  { rewrite <- two_power_succ, <- two_power_Z by lia. rewrite <- Zlt_Qlt.
    by rewrite <- Z.add_1_r in Hd2. }
  assert (Hab : (2 ^ (a - b) * 2 ^ b == 2 ^ a)%Q).
  { rewrite <- Qpower_plus by done. by replace (a - b + b)%Z with a by lia. }
  pose proof (two_power_pos b) as Pb. pose proof (two_power_pos (a - b)) as Pab.
  destruct (Qle_bool (2 ^ (a - b)) (n # d)) eqn:E.
  - split; [by apply Qle_bool_iff|].
    rewrite two_power_succ, Hnd.
    apply Qlt_shift_div_r; [done|].
    (* n < 2 * 2^(a-b) * d, as n < 2*2^a = 2 * 2^(a-b) * 2^b <= ... *)
    nra.
  - assert (Hlt : (n # d < 2 ^ (a - b))%Q).
    { apply Qnot_le_lt. intros H. apply Qle_bool_iff in H. congruence. }
    replace (a - b - 1 + 1)%Z with (a - b)%Z by lia. split; [|done].
    assert (Hs : (2 * 2 ^ (a - b - 1) == 2 ^ (a - b))%Q).
    { rewrite <- two_power_succ. by replace (a - b - 1 + 1)%Z with (a - b)%Z by lia. }
    rewrite Hnd. apply Qle_shift_div_l; [done|].
    pose proof (two_power_pos (a - b - 1)).
    nra.
Qed.

Lemma nearest_spec q :
  (0 < q)%Q ->
  exists M : Z,
    (nearest q == inject_Z M * 2 ^ (ilog2 q - 52))%Q
    /\ (2 ^ 52 <= M <= 2 ^ 53)%Z
    /\ (q - 2 ^ (ilog2 q - 53) <= nearest q <= q + 2 ^ (ilog2 q - 53))%Q.
Proof.
  intros Hq. unfold nearest. cbv zeta.
  pose proof (ilog2_spec q Hq) as [He1 He2].
  set (e := ilog2 q) in *.
  pose proof (two_power_pos (e - 52)) as Hulp.
  pose proof (two_power_pos (e - 53)) as Hhalf.
  assert (H2 : (2 ^ (e - 52) == 2 * 2 ^ (e - 53))%Q).
  { rewrite <- two_power_succ. by replace (e - 53 + 1)%Z with (e - 52)%Z by lia. }
  assert (H52 : (2 ^ e == 4503599627370496 * 2 ^ (e - 52))%Q).
  { change 4503599627370496%Q with (2 ^ 52)%Q. rewrite <- Qpower_plus by done.
    by replace (52 + (e - 52))%Z with e by lia. }
  rewrite two_power_succ in He2.
  set (ulp := (2 ^ (e - 52))%Q) in *.
  pose proof (roundHalfEven_near (q / ulp)) as [Hm1 Hm2].
  set (M := roundHalfEven (q / ulp)) in *.
  assert (Hq' : (q / ulp * ulp == q)%Q).
  { field. lra. }
  set (m := (q / ulp)%Q) in *.
  exists M. rewrite Qred_correct. split; [done|]. split.
  - assert (H1 : (inject_Z (2 ^ 52 - 1) < inject_Z M)%Q).
    { change (inject_Z (2 ^ 52 - 1)) with 4503599627370495%Q. nra. }
    assert (H3 : (inject_Z M < inject_Z (2 ^ 53 + 1))%Q).
    { change (inject_Z (2 ^ 53 + 1)) with 9007199254740993%Q. nra. }
    rewrite <- Zlt_Qlt in H1, H3. lia.
  - nra.
Qed.

Lemma double_error q :
  (q - Qabs q * (1 # 2 ^ 53) <= double q <= q + Qabs q * (1 # 2 ^ 53))%Q.
Proof.
  assert (Hpos : forall p, (0 < p)%Q ->
            (p - p * (1 # 2 ^ 53) <= nearest p <= p + p * (1 # 2 ^ 53))%Q).
  { intros p Hp. destruct (nearest_spec p Hp) as (M & _ & _ & H1 & H2).
    pose proof (ilog2_spec p Hp) as [He _].
    assert (H53 : (2 ^ ilog2 p == 9007199254740992 * 2 ^ (ilog2 p - 53))%Q).
    { change 9007199254740992%Q with (2 ^ 53)%Q. rewrite <- Qpower_plus by done.
      by replace (53 + (ilog2 p - 53))%Z with (ilog2 p) by lia. }
    change (1 # 2 ^ 53)%Q with (1 # 9007199254740992)%Q.
    set (X := (2 ^ (ilog2 p - 53))%Q) in *.
    set (Y := (2 ^ ilog2 p)%Q) in *. clearbody X Y.
    set (N := nearest p) in *. clearbody N. lra. }
  change (1 # 2 ^ 53)%Q with (1 # 9007199254740992)%Q in *.
  unfold double. destruct (Qcompare q 0) eqn:E.
  - apply Qeq_alt in E. rewrite Qabs_pos by lra. lra.
  - apply Qlt_alt in E.
    assert (Hn : (0 < - q)%Q) by lra.
    rewrite Qabs_neg by lra. specialize (Hpos _ Hn). lra.
  - apply Qgt_alt in E. rewrite Qabs_pos by lra. specialize (Hpos _ E). lra.
Qed.

Lemma factor_value : double 0.264583 = (148946987526071 # 562949953421312)%Q.
Proof. by vm_compute. Qed.

Lemma product_error h :
  (0 < h)%Z ->
  (Qabs (times (inject_Z h) (double 0.264583) - inject_Z h * 0.264583)
   <= inject_Z h * 0.264583 * (1 # 2 ^ 52))%Q.
Proof.
  intros Hh. unfold times. rewrite factor_value.
  pose proof (double_error (inject_Z h * (148946987526071 # 562949953421312)))
    as [H1 H2].
  assert (Hq : (inject_Z 0 < inject_Z h)%Q) by (by rewrite <- Zlt_Qlt).
  change (inject_Z 0) with 0%Q in Hq.
  rewrite Qabs_pos in H1, H2 by nra.
  change (1 # 2 ^ 53)%Q with (1 # 9007199254740992)%Q in *.
  change (1 # 2 ^ 52)%Q with (1 # 4503599627370496)%Q in *.
  set (d := double _) in *. clearbody d.
  apply Qabs_diff_Qle_condition. set (x := inject_Z h) in *. clearbody x.
  split; lra.
Qed.

Lemma heightInMM_small h : (h <= 1122)%Z -> heightInMM h = 297%Q.
Proof.
  intros Hh. unfold heightInMM, MathMax, times. rewrite factor_value.
  pose proof (double_error (inject_Z h * (148946987526071 # 562949953421312)))
    as [_ H2].
  assert (Hq : (inject_Z h <= inject_Z 1122)%Q) by (by rewrite <- Zle_Qle).
  change (inject_Z 1122) with 1122%Q in Hq.
  change (1 # 2 ^ 53)%Q with (1 # 9007199254740992)%Q in *.
  set (x := inject_Z h) in *. clearbody x.
  assert (Hle : (double (x * (148946987526071 # 562949953421312)) <= 297)%Q).
  { destruct (Qlt_le_dec x 0) as [Hn|Hp].
    - rewrite Qabs_neg in H2 by lra. lra.
    - rewrite Qabs_pos in H2 by lra. lra. }
  apply Qle_bool_iff in Hle. by rewrite Hle.
Qed.

Lemma heightInMM_large h :
  (1122 < h)%Z ->
  heightInMM h = times (inject_Z h) (double 0.264583)
  /\ (297 < heightInMM h)%Q.
Proof.
  intros Hh. unfold heightInMM, MathMax, times. rewrite factor_value.
  pose proof (double_error (inject_Z h * (148946987526071 # 562949953421312)))
    as [H1 _].
  assert (Hq : (inject_Z 1123 <= inject_Z h)%Q) by (rewrite <- Zle_Qle; lia).
  change (inject_Z 1123) with 1123%Q in Hq.
  change (1 # 2 ^ 53)%Q with (1 # 9007199254740992)%Q in *.
  set (x := inject_Z h) in *. clearbody x.
  rewrite Qabs_pos in H1 by lra.
  assert (Hlt : (297 < double (x * (148946987526071 # 562949953421312)))%Q) by lra.
  destruct (Qle_bool _ 297) eqn:E; [|done].
  apply Qle_bool_iff in E. lra.
Qed.

(** The rounding is the one of binary64 multiplication as the Standard
    Library has it, for every pixel height up to 5000. *)
Example product_agrees_with_SFmul :
  forallb agreesWithSFmul (List.map Pos.of_nat (seq 1 5000)) = true.
Proof. by vm_compute. Qed.

(** C8, as the specification has it, does not hold in every digit: the
    height is a binary64 product, and at 1125 pixels it is
    297.65587500000004 (the Number [2618208765106717 / 2^43]), where
    1125 times 0.264583 is 297.655875. *)
Lemma rounded_height_differs :
  height (pdfOptionsFor 1125) = (2618208765106717 # 8796093022208)%Q
  /\ height (pdfOptionsFor 1125) = double 297.65587500000004
  /\ (Qmax 297 (inject_Z 1125 * 0.264583) == 297.655875)%Q
  /\ ~ (height (pdfOptionsFor 1125) == Qmax 297 (inject_Z 1125 * 0.264583))%Q
  /\ double 297.655875 <> height (pdfOptionsFor 1125).
Proof.
  split; [by vm_compute|]. split; [by vm_compute|]. split; [by vm_compute|].
  split; [|by vm_compute].
  assert (H : (Qmax 297 (inject_Z 1125 * 0.264583) == 297.655875)%Q)
    by (by vm_compute).
  rewrite H. by vm_compute.
Qed.

(** C8, amended: the width handed to [page.pdf] is always [210mm], and the
    height is the binary64 value of [Math.max(297, h * 0.264583)]: 297 up
    to 1122 pixels, and beyond that the rounded product of the pixel height
    and the Number nearest to 0.264583, which is more than 297.  It is the
    larger of 297 and the pixel height times 0.264583 up to the rounding,
    a [2^-52]th of it at most. *)
Theorem page_size h :
  width (pdfOptionsFor h) = js "210mm"
  /\ (297 <= height (pdfOptionsFor h))%Q
  /\ ((h <= 1122)%Z -> height (pdfOptionsFor h) = 297%Q)
  /\ ((1122 < h)%Z ->
        height (pdfOptionsFor h)
        = double (inject_Z h * (148946987526071 # 562949953421312))
        /\ (297 < height (pdfOptionsFor h))%Q)
  /\ (Qabs (height (pdfOptionsFor h) - Qmax 297 (inject_Z h * 0.264583))
      <= Qmax 297 (inject_Z h * 0.264583) * (1 # 2 ^ 52))%Q.
Proof.
  simpl height. split; [done|].
  destruct (Z_le_gt_dec h 1122) as [Hs|Hl].
  - pose proof (heightInMM_small h Hs) as ->.
    assert (Hq : (inject_Z h <= inject_Z 1122)%Q) by (by rewrite <- Zle_Qle).
    change (inject_Z 1122) with 1122%Q in Hq.
    split; [done|]. split; [done|]. split; [lia|].
    rewrite Q.max_l by lra. by vm_compute.
  - apply Z.gt_lt in Hl.
    pose proof (heightInMM_large h Hl) as [He Hgt].
    assert (Hq : (inject_Z 1123 <= inject_Z h)%Q) by (rewrite <- Zle_Qle; lia).
    change (inject_Z 1123) with 1123%Q in Hq.
    split; [by apply Qlt_le_weak|]. split; [lia|]. split.
    + intros _. split; [|done].
      rewrite He. unfold times. by rewrite factor_value.
    + rewrite Q.max_r by lra. rewrite He. apply product_error. lia.
Qed.

Example short_content_gets_A4_height : height (pdfOptionsFor 800) = 297%Q.
Proof. by vm_compute. Qed.

Example long_content_sets_the_height :
  height (pdfOptionsFor 2000) = double 529.166
  /\ height (pdfOptionsFor 1123) = double 297.126709.
Proof. by vm_compute. Qed.

(** ** The handler *)

Lemma renderAndStore_pdf v ext data html name folderId o :
  In (Pdf o) (fst (renderAndStore v ext data html name folderId)) ->
  exists document, o = pdfOptionsFor (scrollHeight ext document).
Proof.
  unfold renderAndStore, call.
  destruct (setContent ext html) as [d|e]; simpl; [|by intros [?|[]]].
  destruct (prune v data d) as [d'|e]; simpl; [|by intros [?|[?|[]]]].
  set (o' := pdfOptionsFor (scrollHeight ext (rasterize d'))).
  destruct (pdf ext (rasterize d') o') as [buf|e]; simpl.
  - destruct (isTestMode v); simpl.
    + destruct (writeFileSync ext name buf); simpl;
        intros [?|[?|[?|[H|[?|[]]]]]]; try done;
        injection H as <-; by eexists.
    + destruct (filesCreate ext name _ buf); simpl;
        intros [?|[?|[?|[H|[?|[]]]]]]; try done;
        injection H as <-; by eexists.
  - intros [?|[?|[?|[H|[]]]]]; try done. injection H as <-. by eexists.
Qed.

(** Whatever the handler hands to [page.pdf] is the page size computed
    from a measured height. *)
Lemma uploadPdf_pdf v ext w body o :
  In (Pdf o) (events (uploadPdf v ext w body)) ->
  exists document, o = pdfOptionsFor (scrollHeight ext document).
Proof.
  unfold uploadPdf, events.
  destruct (if isTestMode v then (w, []) else loadTokens w) as [w1 l0] eqn:E0.
  assert (Hl0 : ~ In (Pdf o) l0).
  { destruct (isTestMode v); [injection E0 as <- <-; simpl; tauto|].
    unfold loadTokens in E0.
    destruct (tokens w), (tokensFile w); injection E0 as <- <-;
      simpl; intuition congruence. }
  destruct (negb (isTestMode v) && bool_decide (tokens w1 = None)); [done|].
  destruct (templateFile w1) as [html|]; [|done].
  destruct (formatDate (get body (js "date"))) as [date|e]; [|done].
  unfold generate.
  destruct (launch ext); simpl.
  - destruct (renderAndStore _ _ _ _ _ _) as [l r] eqn:E. simpl.
    rewrite in_app_iff. intros [?|[?|H]]; try done.
    apply in_app_iff in H as [H|[?|[]]]; [|done].
    eapply renderAndStore_pdf. by rewrite E.
  - rewrite in_app_iff. intros [?|[?|[]]]; done.
Qed.

(** C9: without [template.html] the request is answered with a client
    error that carries a message (400 for the missing template, or 401 when
    the caller is not authenticated in the first place), and the browser is
    never launched. *)
Theorem missing_template_rejected v ext w body :
  templateFile w = None ->
  ~ In Launch (events (uploadPdf v ext w body))
  /\ (400 <= status (reply (uploadPdf v ext w body)) < 500)%Z
  /\ (exists text authUrl,
        json (reply (uploadPdf v ext w body)) = Error (Literal text) authUrl)
  /\ (reply (uploadPdf v ext w body)
      = {| status := 400;
           json := Error (Literal (js "template.html file not found")) None |}
      \/ status (reply (uploadPdf v ext w body)) = 401%Z
         /\ isTestMode v = false /\ tokens w = None /\ tokensFile w = None).
Proof.
  intros Ht. unfold uploadPdf, events, reply, loadTokens.
  destruct (isTestMode v); simpl.
  - rewrite Ht. simpl. repeat split; [tauto | lia | eauto | by left].
  - destruct (tokens w) eqn:Hc; simpl.
    + rewrite Hc, Ht. simpl. repeat split; [tauto | lia | eauto | by left].
    + destruct (tokensFile w) eqn:Hf; simpl.
      * rewrite Ht. simpl.
        repeat split; [intuition congruence | lia | eauto | by left].
      * rewrite Hc. simpl.
        repeat split; [tauto | lia | eauto | by right].
Qed.

Lemma missing_template_rejected_witness :
  templateFile noTemplate = None
  /\ ~ In Launch (events (uploadPdf IndexJs anySurface noTemplate ∅))
  /\ reply (uploadPdf IndexJs anySurface noTemplate ∅)
     = {| status := 400;
          json := Error (Literal (js "template.html file not found")) None |}.
Proof.
  split; [reflexivity|].
  destruct (missing_template_rejected IndexJs anySurface noTemplate ∅ eq_refl)
    as (Hl & _ & _ & [Hr|(H401 & _)]).
  - by split.
  - vm_compute in H401. discriminate.
Defined.

(** With the template in place the same request goes on to the browser. *)
Example template_present_launches :
  let w := {| tokens := tokens noTemplate; tokensFile := None;
              templateFile := Some (js "<p>{{name}}</p>"); now := 17 |} in
  events (uploadPdf IndexJs anySurface w {[ js "name" := VString (js "Ana") ]})
  = [ Launch; SetContent (js "<p>Ana</p>"); EvaluatePrune; EvaluateRasterize;
      Pdf (pdfOptionsFor 2000); FilesCreate (js "document-17.pdf") None; Close ]
  /\ status (reply (uploadPdf IndexJs anySurface w
                      {[ js "name" := VString (js "Ana") ]})) = 200%Z.
Proof. by vm_compute. Qed.

(** * Further properties *)

(** ** The renderer *)

Lemma matchToken_needs_open c s :
  hasOpen (c :: s) = false -> matchToken (c :: s) = None.
Proof.
  intros Hn. unfold matchToken. simpl.
  destruct (c =? LBRACE) eqn:E1; [|done].
  destruct s as [|c2 s]; [done|]. simpl in *.
  rewrite E1 in Hn. simpl in Hn.
  by destruct (c2 =? LBRACE).
Qed.

Lemma hasOpen_tail c s : hasOpen (c :: s) = false -> hasOpen s = false.
Proof.
  destruct s as [|c2 s]; [done|]. simpl.
  intros H. apply orb_false_iff in H as [_ H]. exact H.
Qed.

(** X1: a template in which no two opening braces stand together is
    returned as it is, whatever the field map. *)
Theorem template_without_tokens_unchanged data s :
  hasOpen s = false -> replaceTemplate s data = s.
Proof.
  unfold replaceTemplate. induction s as [|c s IH]; intros H; [done|].
  rewrite replaceAll_copy.
  - f_equal. apply IH. by apply hasOpen_tail in H.
  - by apply matchToken_needs_open.
Qed.

Lemma template_without_tokens_unchanged_witness :
  replaceTemplate (js "<style>p { margin: 0 } a {}</style>") nullSample
  = js "<style>p { margin: 0 } a {}</style>".
Proof.
  apply (template_without_tokens_unchanged nullSample
           (js "<style>p { margin: 0 } a {}</style>")).
  reflexivity.
Defined.

(** X2: the pattern matches at the head of a text exactly when the text
    begins with a well-formed token, and then captures that token's name and
    leaves the text after its closing braces: giving characters back never
    yields another match. *)
Theorem token_pattern_exact s key rest :
  matchToken s = Some (key, rest)
  <-> exists ws1 ws2, tokenParts ws1 key ws2 /\ s = tokenText ws1 key ws2 ++ rest.
Proof.
  split.
  - apply matchToken_inv.
  - intros (ws1 & ws2 & Hparts & ->). by apply matchToken_token.
Qed.

Example not_tokens :
  matchToken (js "{{}}") = None
  /\ matchToken (js "{{ first name }}") = None
  /\ matchToken (js "{{first-name}}") = None
  /\ matchToken (js "{ {name}}") = None
  /\ matchToken (js "{{name} }") = None.
Proof. by vm_compute. Qed.

(** X3: a token is replaced where it stands by what the callback gives for
    its name; the text before and after it is rendered on its own, and the
    text put in is not scanned again. *)
Theorem token_rendered_in_place data pre ws1 key ws2 rest :
  tokenParts ws1 key ws2 ->
  replaceTemplate (pre ++ tokenText ws1 key ws2 ++ rest) data
  = replaceTemplate pre data ++ replacer data key ++ replaceTemplate rest data.
Proof. apply replaceTemplate_token. Qed.

Lemma token_rendered_in_place_witness :
  replaceTemplate (js "" ++ tokenText [32] (js "name") [32] ++ js "/{{age}}")
    nestedSample
  = replaceTemplate (js "") nestedSample ++ replacer nestedSample (js "name")
    ++ replaceTemplate (js "/{{age}}") nestedSample.
Proof.
  apply (token_rendered_in_place nestedSample (js "") [32] (js "name") [32]
           (js "/{{age}}")).
  exact name_token_parts.
Defined.

Example value_is_not_rescanned :
  replaceTemplate (js "{{ name }}/{{age}}") nestedSample = js "{{age}}/7".
Proof. by vm_compute. Qed.

Lemma replaceNewlines_cons c s :
  replaceNewlines (c :: s)
  = (if c =? LF then js "<br>" else [c]) ++ replaceNewlines s.
Proof. reflexivity. Qed.

Lemma replaceNewlines_joinWith s :
  replaceNewlines s = joinWith (js "<br>") (split LF s).
Proof.
  induction s as [|c s IH]; [done|].
  rewrite replaceNewlines_cons, IH. simpl split.
  pose proof (split_not_nil LF s) as Hne.
  destruct (split LF s) as [|l ls]; [done|].
  destruct (c =? LF); [done|]. simpl. by destruct ls.
Qed.

(** X4: for a field outside the list fields that has a value, the token
    gives way to the value's text with [<br>] put between its lines and
    every line kept as it is: nothing else is escaped or trimmed. *)
Theorem plain_field_breaks_lines data pre ws1 key ws2 rest :
  tokenParts ws1 key ws2 ->
  key ∉ listFields ->
  get data key <> VUndefined ->
  replaceTemplate (pre ++ tokenText ws1 key ws2 ++ rest) data
  = replaceTemplate pre data
    ++ joinWith (js "<br>") (split LF (ToString (get data key)))
    ++ replaceTemplate rest data.
Proof.
  intros Hparts Hk Hv.
  by rewrite replaceTemplate_token, replacer_plain, replaceNewlines_joinWith.
Qed.

Lemma plain_field_breaks_lines_witness :
  replaceTemplate (js "<b>" ++ tokenText [32] (js "name") [32] ++ js "</b>")
    markupSample
  = replaceTemplate (js "<b>") markupSample
    ++ joinWith (js "<br>") (split LF (ToString (get markupSample (js "name"))))
    ++ replaceTemplate (js "</b>") markupSample.
Proof.
  apply (plain_field_breaks_lines markupSample (js "<b>") [32] (js "name") [32]
           (js "</b>")).
  - exact name_token_parts.
  - vm_compute. intros H. repeat (apply elem_of_cons in H as [H|H]; [discriminate|]).
    by apply elem_of_nil in H.
  - vm_compute. discriminate.
Defined.

Example plain_field_keeps_markup :
  replaceTemplate (js "<b>{{ name }}</b>") markupSample
  = js "<b> <i>A&B</i> <br>- x </b>".
Proof. by vm_compute. Qed.

Lemma split_all_space text :
  Forall (Forall (fun c => isWhiteSpace c = true)) (split LF text)
  <-> Forall (fun c => isWhiteSpace c = true) text.
Proof.
  induction text as [|c text IH]; simpl.
  - split; [constructor | by repeat constructor].
  - pose proof (split_not_nil LF text) as Hne.
    destruct (c =? LF) eqn:Hc.
    + apply N.eqb_eq in Hc as ->. rewrite !Forall_cons, IH.
      split; [by intros [_ ?] | by intros [_ ?]].
    + destruct (split LF text) as [|l ls]; [done|].
      rewrite !Forall_cons in *. rewrite <- IH. tauto.
Qed.

(** A list field has no line to show exactly when its text is white space
    (line breaks included) throughout. *)
Lemma fieldLines_nil_iff text :
  fieldLines text = [] <-> Forall (fun c => isWhiteSpace c = true) text.
Proof.
  rewrite <- split_all_space. unfold fieldLines.
  induction (split LF text) as [|l ls IH]; simpl.
  - split; [constructor | done].
  - rewrite Forall_cons, <- IH, <- trim_nil_iff.
    destruct (trim l) as [|c t]; simpl; [tauto|].
    split; [done | by intros [? _]].
Qed.

(** X5: a list field whose value is empty or white space throughout (line
    breaks included) is rendered as the empty list, and only such a value
    is: any other value shows at least one line. *)
Theorem blank_list_field_renders_empty_list data pre ws1 key ws2 rest :
  tokenParts ws1 key ws2 ->
  key ∈ listFields ->
  get data key <> VUndefined ->
  (Forall (fun c => isWhiteSpace c = true) (ToString (get data key)) ->
   replaceTemplate (pre ++ tokenText ws1 key ws2 ++ rest) data
   = replaceTemplate pre data ++ js "<ul></ul>" ++ replaceTemplate rest data)
  /\ (replacer data key = js "<ul></ul>" ->
      Forall (fun c => isWhiteSpace c = true) (ToString (get data key))).
Proof.
  intros Hparts Hk Hv. split.
  - intros Hws. rewrite replaceTemplate_token, replacer_list by done.
    apply fieldLines_nil_iff in Hws. by rewrite Hws.
  - rewrite replacer_list by done. intros H. apply fieldLines_nil_iff.
    destruct (fieldLines _) as [|l [|l' ls]]; [done|discriminate|discriminate].
Qed.

Lemma blank_list_field_renders_empty_list_witness :
  replaceTemplate (js "" ++ tokenText [32] (js "team") [] ++ js "") markupSample
  = replaceTemplate (js "") markupSample ++ js "<ul></ul>"
    ++ replaceTemplate (js "") markupSample.
Proof.
  apply (blank_list_field_renders_empty_list markupSample (js "") [32]
           (js "team") [] (js "")).
  - exact team_token_parts.
  - vm_compute. repeat constructor.
  - vm_compute. discriminate.
  - vm_compute. repeat constructor.
Defined.

(** X6: a token named after a member that every object inherits is not an
    unknown token: the field map gives the built-in function for it, and
    its source text is what is rendered. *)
Theorem inherited_member_rendered (data : object) p f pre ws1 ws2 rest :
  In (p, f) inheritedFunctions ->
  data !! js p = None ->
  Forall (fun c => isWhiteSpace c = true) ws1 ->
  Forall (fun c => isWhiteSpace c = true) ws2 ->
  replaceTemplate (pre ++ tokenText ws1 (js p) ws2 ++ rest) data
  = replaceTemplate pre data
    ++ js "function " ++ js f ++ js "() { [native code] }"
    ++ replaceTemplate rest data.
Proof.
  intros Hin Hown H1 H2.
  assert (Hparts : tokenParts ws1 (js p) ws2).
  { unfold inheritedFunctions in Hin. simpl in Hin.
    repeat (destruct Hin as [[= <- <-]|Hin];
            [split; [done | repeat constructor | done | done]|]).
    done. }
  assert (Hr : replacer data (js p)
               = js "function " ++ js f ++ js "() { [native code] }").
  { unfold inheritedFunctions in Hin. simpl in Hin.
    repeat (destruct Hin as [[= <- <-]|Hin];
            [unfold replacer, get; rewrite Hown; by vm_compute|]).
    done. }
  rewrite replaceTemplate_token, Hr by done. by rewrite <- !app_assoc.
Qed.

Lemma inherited_member_rendered_witness :
  replaceTemplate (js "" ++ tokenText [] (js "valueOf") [] ++ js "") nullSample
  = replaceTemplate (js "") nullSample
    ++ js "function " ++ js "valueOf" ++ js "() { [native code] }"
    ++ replaceTemplate (js "") nullSample.
Proof.
  apply (inherited_member_rendered nullSample "valueOf" "valueOf" (js "") [] []
           (js "")).
  - unfold inheritedFunctions. simpl. tauto.
  - reflexivity.
  - constructor.
  - constructor.
Defined.

(** ** [formatDate] outside the ISO shape *)

(** X7: [formatDate] takes the first three dash-separated parts whatever
    they are: a part that is missing prints as [undefined], anything after
    the third part is dropped. *)
Theorem formatDate_other_shapes :
  (forall s, s <> [] -> Forall (fun c => c <> 45) s ->
     formatDate (VString s) = Ok (js "undefined / undefined / " ++ s))
  /\ (forall y m, Forall (fun c => c <> 45) y -> Forall (fun c => c <> 45) m ->
        formatDate (VString (y ++ js "-" ++ m))
        = Ok (js "undefined / " ++ m ++ js " / " ++ y))
  /\ (forall y m d more,
        Forall (fun c => c <> 45) y -> Forall (fun c => c <> 45) m ->
        Forall (fun c => c <> 45) d ->
        formatDate (VString (y ++ js "-" ++ m ++ js "-" ++ d ++ js "-" ++ more))
        = Ok (d ++ js " / " ++ m ++ js " / " ++ y)).
Proof.
  repeat split.
  - intros s Hne Hs. unfold formatDate.
    replace (ToBoolean (VString s)) with true by (by destruct s).
    simpl negb. cbv iota. by rewrite (split_no_sep _ _ Hs).
  - intros y m Hy Hm. unfold formatDate. change (js "-") with [45]. simpl app.
    replace (ToBoolean (VString (y ++ 45 :: m))) with true by (by destruct y).
    simpl negb. cbv iota.
    by rewrite (split_app_sep _ _ _ Hy), (split_no_sep _ _ Hm).
  - intros y m d more Hy Hm Hd. unfold formatDate.
    change (js "-") with [45]. simpl app.
    replace (ToBoolean (VString (y ++ 45 :: m ++ 45 :: d ++ 45 :: more)))
      with true by (by destruct y).
    simpl negb. cbv iota.
    rewrite (split_app_sep _ _ _ Hy), (split_app_sep _ _ _ Hm),
      (split_app_sep _ _ _ Hd).
    pose proof (split_not_nil 45 more). by destruct (split 45 more).
Qed.

Lemma formatDate_other_shapes_witness :
  formatDate (VString (js "07.03.2024"))
  = Ok (js "undefined / undefined / " ++ js "07.03.2024").
Proof.
  apply (proj1 formatDate_other_shapes (js "07.03.2024")).
  - discriminate.
  - repeat constructor; discriminate.
Defined.

Example formatDate_time_suffix_dropped :
  formatDate (VString (js "2024-03-07-T10")) = Ok (js "07 / 03 / 2024")
  /\ formatDate (VString (js "2024-03")) = Ok (js "undefined / 03 / 2024")
  /\ formatDate (VNumber 20240307) = Throw TypeError
  /\ formatDate (VNumber 0) = Ok [].
Proof. by vm_compute. Qed.

Lemma formatDate_throws v :
  ToBoolean v = true -> isString v = false -> formatDate v = Throw TypeError.
Proof. unfold formatDate. intros -> Hs. by destruct v. Qed.

(** ** The handler, path by path *)

Lemma uploadPdf_unfold v ext w body :
  uploadPdf v ext w body
  = let w1 := fst (gate v w) in
    let l0 := snd (gate v w) in
    if negb (isTestMode v) && bool_decide (tokens w1 = None) then
      (w1, l0, {| status := 401;
                  json := Error (Literal (js "Not authenticated"))
                            (Some (js "/auth")) |})
    else
      match templateFile w1 with
      | None =>
          (w1, l0, {| status := 400;
                      json := Error (Literal (js "template.html file not found"))
                                None |})
      | Some htmlTemplate =>
          match formatDate (get body (js "date")) with
          | Throw e => (w1, l0, serverError e)
          | Ok date =>
              let data := templateData v body date in
              let run := generate v ext data (replaceTemplate htmlTemplate data)
                           (pdfFileName w1 body) (get body (js "folderId")) in
              (w1, l0 ++ fst run, snd run)
          end
      end.
Proof.
  unfold uploadPdf, gate.
  destruct (if isTestMode v then (w, []) else loadTokens w) as [w1 l0].
  simpl. destruct (negb (isTestMode v) && bool_decide (tokens w1 = None)); [done|].
  destruct (templateFile w1); [|done].
  destruct (formatDate _); [|done].
  by destruct (generate _ _ _ _ _ _).
Qed.

(** What the authentication step does: it changes nothing but the cached
    tokens, which it takes from [tokens.json] when it has none. *)
Lemma gate_facts v w :
  templateFile (fst (gate v w)) = templateFile w
  /\ now (fst (gate v w)) = now w
  /\ tokensFile (fst (gate v w)) = tokensFile w
  /\ (isTestMode v = true \/ tokens w <> None \/ tokensFile w = None ->
      gate v w = (w, []))
  /\ (forall t, isTestMode v = false -> tokens w = None ->
      tokensFile w = Some t ->
      tokens (fst (gate v w)) = Some t /\ snd (gate v w) = [SetCredentials t]).
Proof.
  unfold gate, loadTokens.
  destruct (isTestMode v), (tokens w) as [c|] eqn:Hc, (tokensFile w) as [t|] eqn:Hf;
    simpl; repeat split; try done; try (intros [?|[?|?]]; done);
    try (by intros ? ? ? [= <-]); try (by intros ? _ _ [= <-]);
    congruence.
Qed.

Lemma gate_passes v w :
  isTestMode v = true \/ tokens w <> None \/ tokensFile w <> None ->
  negb (isTestMode v) && bool_decide (tokens (fst (gate v w)) = None) = false.
Proof.
  unfold gate, loadTokens.
  destruct (isTestMode v), (tokens w) as [c|] eqn:Hc, (tokensFile w) as [t|] eqn:Hf;
    simpl; try done; rewrite ?Hc; try done.
  intros [?|[?|?]]; done.
Qed.

Lemma gate_events v w e :
  In e (snd (gate v w)) ->
  exists t, e = SetCredentials t /\ isTestMode v = false.
Proof.
  unfold gate, loadTokens.
  destruct (isTestMode v), (tokens w), (tokensFile w); simpl; try done.
  intros [<-|[]]. eauto.
Qed.

Lemma uploadPdf_world v ext w body :
  fst (fst (uploadPdf v ext w body)) = fst (gate v w).
Proof.
  rewrite uploadPdf_unfold. cbv zeta.
  destruct (negb (isTestMode v) && _); [done|].
  destruct (templateFile _); [|done]. by destruct (formatDate _).
Qed.

(** The calls between the launch and the close. *)
Lemma renderAndStore_cases v ext data html name folderId :
  let l := fst (renderAndStore v ext data html name folderId) in
  let r := snd (renderAndStore v ext data html name folderId) in
  ~ In Launch l /\ ~ In Close l /\ (forall t, ~ In (SetCredentials t) l)
  /\ (isTestMode v = true -> forall n p, ~ In (FilesCreate n p) l)
  /\ (isTestMode v = false -> forall n, ~ In (WriteFile n) l)
  /\ match r with
     | Ok p => existsb isPdf l = true /\ existsb isStore l = true
               /\ forall e u, p <> Error e u
     | Throw _ => True
     end.
Proof.
  unfold renderAndStore, call.
  destruct (setContent ext html) as [d|e]; simpl;
    [|repeat split; intros; intuition congruence].
  destruct (prune v data d) as [d'|e]; simpl;
    [|repeat split; intros; intuition congruence].
  destruct (pdf ext (rasterize d') _) as [buf|e]; simpl;
    [|repeat split; intros; intuition congruence].
  destruct (isTestMode v); simpl.
  - destruct (writeFileSync ext name buf); simpl;
      repeat split; intros; intuition congruence.
  - destruct (filesCreate ext name _ buf); simpl;
      repeat split; intros; intuition congruence.
Qed.

Lemma generate_cases v ext data html name folderId :
  (exists e, launch ext = Throw e
     /\ generate v ext data html name folderId = ([Launch], serverError e))
  \/ (exists u, launch ext = Ok u
        /\ generate v ext data html name folderId
           = (Launch :: fst (renderAndStore v ext data html name folderId)
                ++ [Close],
              match snd (renderAndStore v ext data html name folderId) with
              | Ok p => {| status := 200; json := p |}
              | Throw e => serverError e
              end)).
Proof.
  unfold generate. destruct (launch ext) as [u|e]; [right|left]; eexists.
  - split; [done|]. by destruct (renderAndStore _ _ _ _ _ _).
  - done.
Qed.

(** X8: a date that is neither falsy nor a string (a number, say) makes
    [formatDate] throw; the request is then answered 500 with that error,
    before any browser is launched. *)
Theorem bad_date_fails_before_launch v ext w body html :
  isTestMode v = true \/ tokens w <> None \/ tokensFile w <> None ->
  templateFile w = Some html ->
  ToBoolean (get body (js "date")) = true ->
  isString (get body (js "date")) = false ->
  reply (uploadPdf v ext w body) = serverError TypeError
  /\ ~ In Launch (events (uploadPdf v ext w body)).
Proof.
  intros Hgate Ht Hb Hs. unfold reply, events.
  rewrite uploadPdf_unfold. cbv zeta.
  rewrite (gate_passes _ _ Hgate).
  destruct (gate_facts v w) as (-> & _). rewrite Ht.
  rewrite (formatDate_throws _ Hb Hs). simpl. split; [done|].
  intros H. by apply gate_events in H as (t & ? & _).
Qed.

Lemma bad_date_fails_before_launch_witness :
  reply (uploadPdf IndexJs anySurface readyWorld
           {[ js "date" := VNumber 20240307 ]}) = serverError TypeError
  /\ ~ In Launch (events (uploadPdf IndexJs anySurface readyWorld
                            {[ js "date" := VNumber 20240307 ]})).
Proof.
  apply (bad_date_fails_before_launch IndexJs anySurface readyWorld
           {[ js "date" := VNumber 20240307 ]} (js "<p>{{date}}</p>")).
  - right. left. discriminate.
  - reflexivity.
  - reflexivity.
  - reflexivity.
Defined.

Lemma rejected_iff v ext w body :
  status (reply (uploadPdf v ext w body)) = 401%Z
  <-> isTestMode v = false /\ tokens w = None /\ tokensFile w = None.
Proof.
  split.
  - intros H.
    destruct (isTestMode v) eqn:Hv, (tokens w) as [c|] eqn:Hc,
      (tokensFile w) as [t|] eqn:Hf; try done; exfalso; revert H;
      unfold reply; rewrite uploadPdf_unfold; cbv zeta;
      (rewrite gate_passes by (rewrite ?Hv, ?Hc, ?Hf; auto; try (right; left; done); try (right; right; done)));
      (destruct (templateFile _) as [html|]; [|done]);
      (destruct (formatDate _) as [date|]; [|done]);
      cbn [snd];
      match goal with
      | |- context [generate ?a ?b ?c ?d ?e ?f] =>
          destruct (generate_cases a b c d e f) as [(e' & _ & ->)|(u & _ & ->)]
      end; cbn [snd]; try done;
      by destruct (snd (renderAndStore _ _ _ _ _ _)).
  - intros (Hv & Hc & Hf). unfold reply. rewrite uploadPdf_unfold. cbv zeta.
    destruct (gate_facts v w) as (_ & _ & _ & Hsame & _).
    rewrite Hsame by auto. simpl. by rewrite Hv, Hc.
Qed.

(** X9: outside test mode, with no cached tokens and no [tokens.json], the
    request is answered 401 with the hint to [/auth]; nothing is read,
    launched or stored, and the world is left as it was.  In no other
    situation is a request answered 401. *)
Theorem unauthenticated_rejected v ext w body :
  (isTestMode v = false -> tokens w = None -> tokensFile w = None ->
   uploadPdf v ext w body
   = (w, [], {| status := 401;
                json := Error (Literal (js "Not authenticated"))
                          (Some (js "/auth")) |}))
  /\ (status (reply (uploadPdf v ext w body)) = 401%Z ->
      isTestMode v = false /\ tokens w = None /\ tokensFile w = None).
Proof.
  split; [|apply rejected_iff].
  intros Hv Hc Hf. rewrite uploadPdf_unfold. cbv zeta.
  destruct (gate_facts v w) as (_ & _ & _ & Hsame & _).
  rewrite Hsame by auto. simpl. rewrite Hv, Hc. done.
Qed.

Lemma unauthenticated_rejected_witness :
  uploadPdf (Part000 false) anySurface loggedOut ∅
  = (loggedOut, [], {| status := 401;
                       json := Error (Literal (js "Not authenticated"))
                                 (Some (js "/auth")) |}).
Proof.
  apply (proj1 (unauthenticated_rejected (Part000 false) anySurface loggedOut ∅));
    reflexivity.
Defined.

(** X10: outside test mode the handler takes the tokens from [tokens.json]
    when it has none cached, hands them to the OAuth client first thing and
    keeps them, and the request is not answered 401; with tokens cached it
    reads nothing and leaves the world as it was. *)
Theorem credentials_loaded_once v ext w body :
  isTestMode v = false ->
  (forall t, tokens w = None -> tokensFile w = Some t ->
     tokens (fst (fst (uploadPdf v ext w body))) = Some t
     /\ head (events (uploadPdf v ext w body)) = Some (SetCredentials t)
     /\ status (reply (uploadPdf v ext w body)) <> 401%Z)
  /\ (forall c, tokens w = Some c ->
        fst (fst (uploadPdf v ext w body)) = w
        /\ forall t, ~ In (SetCredentials t) (events (uploadPdf v ext w body))).
Proof.
  intros Hv. split.
  - intros t Hc Hf.
    destruct (gate_facts v w) as (_ & _ & _ & _ & Hload).
    destruct (Hload t Hv Hc Hf) as [Htok Hev].
    rewrite uploadPdf_world. split; [done|].
    unfold events, reply. rewrite uploadPdf_unfold. cbv zeta.
    rewrite Htok, Hev, Hv. simpl.
    destruct (templateFile _) as [html|]; [|done].
    destruct (formatDate _) as [date|]; [|done]. simpl. split; [done|].
    destruct (generate_cases v ext (templateData v body date)
                (replaceTemplate html (templateData v body date))
                (pdfFileName (gate v w).1 body) (get body (js "folderId")))
      as [(e & _ & ->)|(u & _ & ->)]; simpl; [done|].
    by destruct (snd (renderAndStore _ _ _ _ _ _)).
  - intros c Hc.
    destruct (gate_facts v w) as (_ & _ & _ & Hsame & _).
    assert (Hg : gate v w = (w, [])) by (apply Hsame; right; left; congruence).
    rewrite uploadPdf_world, Hg. split; [done|]. intros t.
    unfold events. rewrite uploadPdf_unfold, Hg. cbv zeta. simpl.
    destruct (negb (isTestMode v) && _); [simpl; tauto|].
    destruct (templateFile w) as [html|]; [|simpl; tauto].
    destruct (formatDate _) as [date|]; [|simpl; tauto]. simpl.
    destruct (generate_cases v ext (templateData v body date)
                (replaceTemplate html (templateData v body date))
                (pdfFileName w body) (get body (js "folderId")))
      as [(e & _ & ->)|(u & _ & ->)]; simpl; [intuition congruence|].
    destruct (renderAndStore_cases v ext (templateData v body date)
                (replaceTemplate html (templateData v body date))
                (pdfFileName w body) (get body (js "folderId")))
      as (_ & _ & Hno & _).
    rewrite in_app_iff. simpl. specialize (Hno t). intuition congruence.
Qed.

Lemma credentials_loaded_once_witness :
  tokens (fst (fst (uploadPdf IndexJs anySurface restarted ∅)))
  = Some (Credentials (js "token"))
  /\ head (events (uploadPdf IndexJs anySurface restarted ∅))
     = Some (SetCredentials (Credentials (js "token")))
  /\ status (reply (uploadPdf IndexJs anySurface restarted ∅)) <> 401%Z.
Proof.
  apply (proj1 (credentials_loaded_once IndexJs anySurface restarted ∅ eq_refl)
           (Credentials (js "token")));
    reflexivity.
Defined.

Lemma pdfFileName_gate v w body :
  pdfFileName (fst (gate v w)) body = pdfFileName w body.
Proof.
  unfold pdfFileName. by destruct (gate_facts v w) as (_ & -> & _).
Qed.

(** The two ways a request can go: answered before the inner [try], or
    handed to it. *)
Lemma uploadPdf_cases v ext w body :
  (events (uploadPdf v ext w body) = snd (gate v w)
   /\ (reply (uploadPdf v ext w body)
       = {| status := 401;
            json := Error (Literal (js "Not authenticated")) (Some (js "/auth")) |}
       \/ reply (uploadPdf v ext w body)
          = {| status := 400;
               json := Error (Literal (js "template.html file not found")) None |}
       \/ exists e, reply (uploadPdf v ext w body) = serverError e))
  \/ (exists html date,
        templateFile w = Some html
        /\ formatDate (get body (js "date")) = Ok date
        /\ events (uploadPdf v ext w body)
           = snd (gate v w)
             ++ fst (generate v ext (templateData v body date)
                       (replaceTemplate html (templateData v body date))
                       (pdfFileName w body) (get body (js "folderId")))
        /\ reply (uploadPdf v ext w body)
           = snd (generate v ext (templateData v body date)
                    (replaceTemplate html (templateData v body date))
                    (pdfFileName w body) (get body (js "folderId")))).
Proof.
  unfold events, reply. rewrite uploadPdf_unfold. cbv zeta.
  rewrite pdfFileName_gate.
  destruct (gate_facts v w) as (-> & _).
  destruct (negb (isTestMode v) && _); [left; simpl; auto|].
  destruct (templateFile w) as [html|]; [|left; simpl; auto].
  destruct (formatDate _) as [date|e] eqn:Hd; [|left; simpl; eauto].
  right. exists html, date. simpl. auto.
Qed.

(** X11: the browser is closed on every path on which it was opened, as the
    last call of the request, also when a later step throws; when the launch
    itself throws there is nothing to close and the request is answered 500;
    and without a launch nothing is closed. *)
Theorem browser_closed_when_opened v ext w body :
  (In Launch (events (uploadPdf v ext w body)) ->
     match launch ext with
     | Ok _ => last (events (uploadPdf v ext w body)) = Some Close
     | Throw e => ~ In Close (events (uploadPdf v ext w body))
                  /\ reply (uploadPdf v ext w body) = serverError e
     end)
  /\ (~ In Launch (events (uploadPdf v ext w body)) ->
      ~ In Close (events (uploadPdf v ext w body))).
Proof.
  assert (Hg : forall e, In e (snd (gate v w)) -> e <> Launch /\ e <> Close).
  { intros e He. apply gate_events in He as (t & -> & _). done. }
  destruct (uploadPdf_cases v ext w body)
    as [[-> _]|(html & date & _ & _ & -> & ->)].
  - split; intros H.
    + apply Hg in H. tauto.
    + intros H'. apply Hg in H'. tauto.
  - destruct (generate_cases v ext (templateData v body date)
                (replaceTemplate html (templateData v body date))
                (pdfFileName w body) (get body (js "folderId")))
      as [(e & He & ->)|(u & Hu & ->)]; rewrite ?He, ?Hu; simpl.
    + split.
      * intros _. split; [|done]. rewrite in_app_iff. simpl.
        intros [H|[?|[]]]; [apply Hg in H; tauto | done].
      * intros H. destruct H. rewrite in_app_iff. simpl. tauto.
    + split.
      * intros _. rewrite app_comm_cons, app_assoc. apply last_snoc.
      * intros H. destruct H. rewrite in_app_iff. simpl. tauto.
Qed.

Lemma browser_closed_when_opened_witness :
  last (events (uploadPdf IndexJs failingPdf readyWorld ∅)) = Some Close.
Proof.
  apply (proj1 (browser_closed_when_opened IndexJs failingPdf readyWorld ∅)).
  vm_compute. tauto.
Defined.

Example failing_pdf_run :
  events (uploadPdf IndexJs failingPdf readyWorld ∅)
  = [ Launch; SetContent (js "<p></p>"); EvaluatePrune; EvaluateRasterize;
      Pdf (pdfOptionsFor 2000); Close ]
  /\ reply (uploadPdf IndexJs failingPdf readyWorld ∅)
     = serverError (SurfaceError (js "Printing failed")).
Proof. by vm_compute. Qed.

(** ** The field map given to the template *)

Lemma lookup_keyed (g : jsstring -> value) ks k :
  (list_to_map (List.map (fun k => (k, g k)) ks) : object) !! k
  = if bool_decide (k ∈ ks) then Some (g k) else None.
Proof.
  induction ks as [|k' ks IH]; simpl.
  - by rewrite lookup_empty.
  - destruct (decide (k' = k)) as [->|Hne].
    + rewrite lookup_insert_eq. by rewrite bool_decide_eq_true_2 by left.
    + rewrite lookup_insert_ne, IH by done.
      destruct (decide (k ∈ ks)) as [Hin|Hin].
      * rewrite !bool_decide_eq_true_2; [done | by right | done].
      * rewrite !bool_decide_eq_false_2; [done| |done].
        intros [?|?]%elem_of_cons; [congruence|done].
Qed.

Lemma templateData_field v body date k :
  k ∈ templateFields v -> k <> js "date" ->
  get (templateData v body date) k = get body k.
Proof.
  intros Hk Hd. unfold templateData, get. rewrite lookup_keyed.
  rewrite bool_decide_eq_true_2 by done.
  by rewrite bool_decide_eq_false_2 by done.
Qed.

(** X12: the field map handed to the template holds the fields of the
    handler's fixed list and nothing else: each is the body's field, except
    [date], which is the formatted date; any other key of the body
    ([fileName] and [folderId] among them) is no property of the map; and
    [futurePlans] is taken over by [part_000] only. *)
Theorem templateData_get v body date :
  get (templateData v body date) (js "date") = VString date
  /\ (forall k, k ∈ templateFields v -> k <> js "date" ->
        get (templateData v body date) k = get body k)
  /\ (forall k, k ∉ templateFields v -> templateData v body date !! k = None)
  /\ (js "fileName" ∉ templateFields v)
  /\ (js "folderId" ∉ templateFields v)
  /\ (js "futurePlans" ∈ templateFields v <-> v <> IndexJs).
Proof.
  unfold templateData, get. repeat split.
  - rewrite lookup_keyed. rewrite bool_decide_eq_true_2; [done|].
    destruct v; vm_compute; repeat constructor.
  - intros k Hk Hd. rewrite lookup_keyed.
    rewrite bool_decide_eq_true_2 by done.
    by rewrite bool_decide_eq_false_2 by done.
  - intros k Hk. rewrite lookup_keyed. by rewrite bool_decide_eq_false_2 by done.
  - destruct v; vm_compute; intros H;
      repeat (apply elem_of_cons in H as [H|H]; [discriminate|]);
      by apply elem_of_nil in H.
  - destruct v; vm_compute; intros H;
      repeat (apply elem_of_cons in H as [H|H]; [discriminate|]);
      by apply elem_of_nil in H.
  - destruct v; [|intros _; discriminate]. vm_compute. intros H.
    repeat (apply elem_of_cons in H as [H|H]; [discriminate|]).
    by apply elem_of_nil in H.
  - intros Hv. destruct v; [by destruct Hv|]. vm_compute. repeat constructor.
Qed.

Lemma templateData_get_witness :
  get (templateData IndexJs nullSample (js "07 / 03 / 2024")) (js "team")
  = get nullSample (js "team").
Proof.
  destruct (templateData_get IndexJs nullSample (js "07 / 03 / 2024"))
    as (_ & H & _).
  apply H.
  - vm_compute. repeat constructor.
  - discriminate.
Defined.

Example future_plans_by_variant :
  let body : object := {[ js "futurePlans" := VString (js "Study") ]} in
  replaceTemplate (js "{{futurePlans}}") (templateData IndexJs body [])
  = js "{{futurePlans}}"
  /\ replaceTemplate (js "{{futurePlans}}") (templateData (Part000 false) body [])
     = js "Study".
Proof. by vm_compute. Qed.

Lemma textFields_templateFields v k :
  k ∈ textFields v -> k ∈ templateFields v /\ k <> js "date".
Proof.
  destruct v; unfold textFields; simpl; intros H;
    repeat (apply elem_of_cons in H as [->|H];
            [split; [vm_compute; repeat constructor | discriminate]|]);
    by apply elem_of_nil in H.
Qed.

(** ** The handler, end to end *)

(** X13: a text field of the body that is neither falsy nor a string (a
    non-zero number, say) makes the pruning callback throw: the request is
    answered 500, no PDF is made, and the browser is closed. *)
Theorem text_field_number_fails_request v ext w body html date document k :
  isTestMode v = true \/ tokens w <> None \/ tokensFile w <> None ->
  templateFile w = Some html ->
  formatDate (get body (js "date")) = Ok date ->
  (exists u, launch ext = Ok u) ->
  setContent ext (replaceTemplate html (templateData v body date)) = Ok document ->
  k ∈ textFields v ->
  trimSafe (get body k) = false ->
  reply (uploadPdf v ext w body) = serverError TypeError
  /\ existsb isPdf (events (uploadPdf v ext w body)) = false
  /\ last (events (uploadPdf v ext w body)) = Some Close.
Proof.
  intros Hgate Ht Hd [u Hu] Hset Hk Hunsafe.
  assert (Hprune : prune v (templateData v body date) document = Throw TypeError).
  { unfold prune. rewrite pruneSections_throws; [done|].
    intros Hrun. unfold runsToEnd in Hrun.
    rewrite Forall_forall in Hrun. specialize (Hrun k Hk).
    destruct (textFields_templateFields v k Hk) as [Hin Hne].
    rewrite (templateData_field v body date k Hin Hne) in Hrun. congruence. }
  unfold reply, events. rewrite uploadPdf_unfold. cbv zeta.
  rewrite (gate_passes _ _ Hgate), pdfFileName_gate.
  destruct (gate_facts v w) as (-> & _). rewrite Ht, Hd.
  set (data := templateData v body date) in *.
  set (html' := replaceTemplate html data) in *.
  set (name := pdfFileName w body). set (l0 := snd (gate v w)).
  assert (Hl0 : existsb isPdf l0 = false).
  { apply not_true_is_false. intros H.
    apply existsb_exists in H as (e & He & Hp).
    apply gate_events in He as (t & -> & _). done. }
  clearbody data html' name l0.
  unfold generate. rewrite Hu.
  unfold renderAndStore, call.
  unfold mbind, io_bind. rewrite Hset, Hprune.
  cbn [fst snd app]. split; [done|]. split.
  - rewrite existsb_app, Hl0. reflexivity.
  - change (last (l0 ++ [Launch; SetContent html'; EvaluatePrune] ++ [Close])
            = Some Close).
    rewrite app_assoc. apply last_snoc.
Qed.

Lemma text_field_number_fails_request_witness :
  reply (uploadPdf IndexJs anySurface readyWorld {[ js "team" := VNumber 7 ]})
  = serverError TypeError
  /\ existsb isPdf (events (uploadPdf IndexJs anySurface readyWorld
                              {[ js "team" := VNumber 7 ]})) = false
  /\ last (events (uploadPdf IndexJs anySurface readyWorld
                     {[ js "team" := VNumber 7 ]})) = Some Close.
Proof.
  apply (text_field_number_fails_request IndexJs anySurface readyWorld
           {[ js "team" := VNumber 7 ]} (js "<p>{{date}}</p>") [] chartDoc
           (js "team")).
  - right. left. discriminate.
  - reflexivity.
  - reflexivity.
  - by exists tt.
  - reflexivity.
  - vm_compute. repeat constructor.
  - reflexivity.
Defined.

(** X14: outside test mode, when every step succeeds, the calls are made
    in this order - launch, load the rendered template, prune, rasterize,
    print with the computed page size, upload under the file name with the
    folder as parent when one is given, close - and the answer is 200 with
    the identifier and link the upload gave. *)
Theorem successful_upload v ext w body html date document pruned buffer
    fileId viewLink :
  isTestMode v = false ->
  tokens w <> None \/ tokensFile w <> None ->
  templateFile w = Some html ->
  formatDate (get body (js "date")) = Ok date ->
  (exists u, launch ext = Ok u) ->
  setContent ext (replaceTemplate html (templateData v body date))
  = Ok document ->
  prune v (templateData v body date) document = Ok pruned ->
  pdf ext (rasterize pruned)
    (pdfOptionsFor (scrollHeight ext (rasterize pruned))) = Ok buffer ->
  filesCreate ext (pdfFileName w body)
    (if ToBoolean (get body (js "folderId"))
     then Some (get body (js "folderId")) else None) buffer
  = Ok (fileId, viewLink) ->
  events (uploadPdf v ext w body)
  = snd (gate v w)
    ++ [ Launch;
         SetContent (replaceTemplate html (templateData v body date));
         EvaluatePrune; EvaluateRasterize;
         Pdf (pdfOptionsFor (scrollHeight ext (rasterize pruned)));
         FilesCreate (pdfFileName w body)
           (if ToBoolean (get body (js "folderId"))
            then Some (get body (js "folderId")) else None);
         Close ]
  /\ reply (uploadPdf v ext w body)
     = {| status := 200;
          json := Uploaded (match v with
                            | IndexJs => None
                            | Part000 _ => Some false
                            end) fileId viewLink |}.
Proof.
  intros Hv Hgate Ht Hd [u Hu] Hset Hprune Hpdf Hstore.
  unfold reply, events. rewrite uploadPdf_unfold. cbv zeta.
  rewrite gate_passes by auto. rewrite pdfFileName_gate.
  destruct (gate_facts v w) as (-> & _). rewrite Ht, Hd.
  set (data := templateData v body date) in *.
  set (html' := replaceTemplate html data) in *.
  set (name := pdfFileName w body) in *. set (l0 := snd (gate v w)).
  set (folderId := get body (js "folderId")) in *.
  clearbody data html' name l0 folderId.
  unfold generate. rewrite Hu.
  unfold renderAndStore, call.
  unfold mbind, io_bind. rewrite Hset, Hprune. cbn [fst snd app].
  rewrite Hpdf, Hv. cbn [fst snd app]. rewrite Hstore. done.
Qed.

Lemma successful_upload_witness :
  events (uploadPdf IndexJs anySurface restarted ∅)
  = snd (gate IndexJs restarted)
    ++ [ Launch;
         SetContent (replaceTemplate (js "<p>{{date}}</p>")
                       (templateData IndexJs ∅ []));
         EvaluatePrune; EvaluateRasterize;
         Pdf (pdfOptionsFor (scrollHeight anySurface
                               (rasterize (Elem (js "body") None Leaf Leaf))));
         FilesCreate (pdfFileName restarted ∅)
           (if ToBoolean (get (∅ : object) (js "folderId"))
            then Some (get (∅ : object) (js "folderId")) else None);
         Close ]
  /\ reply (uploadPdf IndexJs anySurface restarted ∅)
     = {| status := 200; json := Uploaded None (js "id") (js "link") |}.
Proof.
  apply (successful_upload IndexJs anySurface restarted ∅ (js "<p>{{date}}</p>")
           [] chartDoc (Elem (js "body") None Leaf Leaf) [37; 80; 68; 70]
           (js "id") (js "link")).
  - reflexivity.
  - right. discriminate.
  - reflexivity.
  - reflexivity.
  - by exists tt.
  - reflexivity.
  - by vm_compute.
  - reflexivity.
  - reflexivity.
Defined.

(** X15: in test mode a request needs no tokens: whatever the cache and
    [tokens.json] hold, when every step succeeds the PDF is written under
    [test-pdfs] with the file name, nothing is uploaded, the world is left
    as it was and the answer is 200 with that directory and name. *)
Theorem successful_local_save ext w body html date document pruned buffer :
  templateFile w = Some html ->
  formatDate (get body (js "date")) = Ok date ->
  (exists u, launch ext = Ok u) ->
  setContent ext (replaceTemplate html (templateData (Part000 true) body date))
  = Ok document ->
  prune (Part000 true) (templateData (Part000 true) body date) document
  = Ok pruned ->
  pdf ext (rasterize pruned)
    (pdfOptionsFor (scrollHeight ext (rasterize pruned))) = Ok buffer ->
  (exists u, writeFileSync ext (pdfFileName w body) buffer = Ok u) ->
  uploadPdf (Part000 true) ext w body
  = (w,
     [ Launch;
       SetContent (replaceTemplate html (templateData (Part000 true) body date));
       EvaluatePrune; EvaluateRasterize;
       Pdf (pdfOptionsFor (scrollHeight ext (rasterize pruned)));
       WriteFile (pdfFileName w body); Close ],
     {| status := 200; json := Saved (js "test-pdfs") (pdfFileName w body) |}).
Proof.
  intros Ht Hd [u Hu] Hset Hprune Hpdf [u' Hstore].
  rewrite uploadPdf_unfold. cbv zeta.
  change (gate (Part000 true) w) with (w, @nil event).
  cbn [fst snd isTestMode negb andb]. rewrite Ht, Hd.
  set (data := templateData (Part000 true) body date) in *.
  set (html' := replaceTemplate html data) in *.
  set (name := pdfFileName w body) in *.
  set (folderId := get body (js "folderId")) in *.
  clearbody data html' name folderId.
  unfold generate. rewrite Hu.
  unfold renderAndStore, call.
  unfold mbind, io_bind. rewrite Hset, Hprune. cbn [fst snd app].
  rewrite Hpdf. cbn [fst snd app isTestMode]. rewrite Hstore. done.
Qed.

Lemma successful_local_save_witness :
  uploadPdf (Part000 true) anySurface loggedOut ∅
  = (loggedOut,
     [ Launch;
       SetContent (replaceTemplate (js "<p>{{date}}</p>")
                     (templateData (Part000 true) ∅ []));
       EvaluatePrune; EvaluateRasterize;
       Pdf (pdfOptionsFor (scrollHeight anySurface
                             (rasterize (Elem (js "body") None Leaf Leaf))));
       WriteFile (pdfFileName loggedOut ∅); Close ],
     {| status := 200;
        json := Saved (js "test-pdfs") (pdfFileName loggedOut ∅) |}).
Proof.
  apply (successful_local_save anySurface loggedOut ∅ (js "<p>{{date}}</p>")
           [] chartDoc (Elem (js "body") None Leaf Leaf) [37; 80; 68; 70]).
  - reflexivity.
  - reflexivity.
  - by exists tt.
  - reflexivity.
  - by vm_compute.
  - reflexivity.
  - by exists tt.
Defined.

Example default_file_name :
  pdfFileName loggedOut ∅ = js "document-1700000000000.pdf"
  /\ pdfFileName loggedOut {[ js "fileName" := VString (js "report") ]}
     = js "report.pdf"
  /\ pdfFileName loggedOut {[ js "fileName" := VString [] ]}
     = js "document-1700000000000.pdf".
Proof. by vm_compute. Qed.

Lemma gate_no_pdf_store v w :
  existsb isPdf (snd (gate v w)) = false
  /\ existsb isStore (snd (gate v w)) = false.
Proof.
  split; apply not_true_is_false; intros H;
    apply existsb_exists in H as (e & He & Hp);
    apply gate_events in He as (t & -> & _); done.
Qed.

(** X16: every request is answered 200, 400, 401 or 500; the answer is 200
    exactly when its body is not an error, and then the page was printed, a
    store was written to, and the browser was closed last. *)
Theorem response_kinds v ext w body :
  (status (reply (uploadPdf v ext w body)) = 200%Z
   \/ status (reply (uploadPdf v ext w body)) = 400%Z
   \/ status (reply (uploadPdf v ext w body)) = 401%Z
   \/ status (reply (uploadPdf v ext w body)) = 500%Z)
  /\ (status (reply (uploadPdf v ext w body)) = 200%Z
      <-> forall e u, json (reply (uploadPdf v ext w body)) <> Error e u)
  /\ (status (reply (uploadPdf v ext w body)) = 200%Z ->
      existsb isPdf (events (uploadPdf v ext w body)) = true
      /\ existsb isStore (events (uploadPdf v ext w body)) = true
      /\ last (events (uploadPdf v ext w body)) = Some Close).
Proof.
  assert (Herr : forall (r : response),
            (exists e u, json r = Error e u) ->
            status r = 400%Z \/ status r = 401%Z \/ status r = 500%Z ->
            (status r = 200%Z \/ status r = 400%Z \/ status r = 401%Z
             \/ status r = 500%Z)
            /\ (status r = 200%Z <-> forall e u, json r <> Error e u)
            /\ (status r = 200%Z ->
                existsb isPdf (events (uploadPdf v ext w body)) = true
                /\ existsb isStore (events (uploadPdf v ext w body)) = true
                /\ last (events (uploadPdf v ext w body)) = Some Close)).
  { intros r (e & u & Hj) Hs. repeat split; try lia; try tauto.
    intros H. by destruct (H e u). }
  destruct (uploadPdf_cases v ext w body)
    as [[_ [Hr|[Hr|[e Hr]]]]|(html & date & _ & _ & Hev & Hr)].
  1-3: rewrite Hr in *; apply Herr; simpl; eauto.
  destruct (generate_cases v ext (templateData v body date)
              (replaceTemplate html (templateData v body date))
              (pdfFileName w body) (get body (js "folderId")))
    as [(e & _ & Hg)|(u & _ & Hg)].
  - apply Herr; rewrite Hr, Hg; simpl; eauto.
  - pose proof (renderAndStore_cases v ext (templateData v body date)
                  (replaceTemplate html (templateData v body date))
                  (pdfFileName w body) (get body (js "folderId"))) as Hc.
    cbv zeta in Hc. destruct Hc as (_ & _ & _ & _ & _ & Hc).
    rewrite Hg in Hev, Hr. cbn [fst snd] in Hev, Hr.
    destruct (renderAndStore _ _ _ _ _ _) as [l [p|e]]; cbn [fst snd] in *.
    + destruct Hc as (Hp & Hs & Hne). rewrite Hr, Hev. simpl.
      repeat split; try tauto.
      * rewrite existsb_app. simpl. rewrite existsb_app, Hp.
        by rewrite orb_true_r.
      * rewrite existsb_app. simpl. rewrite existsb_app, Hs.
        by rewrite orb_true_r.
      * rewrite app_comm_cons, app_assoc. apply last_snoc.
    + apply Herr; rewrite Hr; simpl; eauto.
Qed.

(** X17: the two stores exclude each other: in test mode nothing is
    uploaded and the OAuth client is not touched; outside test mode nothing
    is written to the local directory. *)
Theorem stores_by_mode v ext w body :
  (isTestMode v = true ->
     (forall n p, ~ In (FilesCreate n p) (events (uploadPdf v ext w body)))
     /\ (forall t, ~ In (SetCredentials t) (events (uploadPdf v ext w body))))
  /\ (isTestMode v = false ->
      forall n, ~ In (WriteFile n) (events (uploadPdf v ext w body))).
Proof.
  assert (Hg : forall e, In e (snd (gate v w)) ->
                 exists t, e = SetCredentials t /\ isTestMode v = false)
    by apply gate_events.
  assert (Hgen : forall html date,
    let l := fst (generate v ext (templateData v body date)
                    (replaceTemplate html (templateData v body date))
                    (pdfFileName w body) (get body (js "folderId"))) in
    (isTestMode v = true -> (forall n p, ~ In (FilesCreate n p) l)
                            /\ (forall t, ~ In (SetCredentials t) l))
    /\ (isTestMode v = false -> forall n, ~ In (WriteFile n) l)).
  { intros html date.
    destruct (generate_cases v ext (templateData v body date)
                (replaceTemplate html (templateData v body date))
                (pdfFileName w body) (get body (js "folderId")))
      as [(e & _ & ->)|(u & _ & ->)]; cbn [fst snd].
    - simpl. repeat split; intros; intuition congruence.
    - destruct (renderAndStore_cases v ext (templateData v body date)
                  (replaceTemplate html (templateData v body date))
                  (pdfFileName w body) (get body (js "folderId")))
        as (_ & _ & Hcred & Hdrive & Hlocal & _).
      repeat split; intros; simpl; rewrite in_app_iff; simpl.
      + specialize (Hdrive H n p). intuition congruence.
      + specialize (Hcred t). intuition congruence.
      + specialize (Hlocal H n). intuition congruence. }
  destruct (uploadPdf_cases v ext w body)
    as [[-> _]|(html & date & _ & _ & -> & _)].
  - repeat split; intros; intros Hin; apply Hg in Hin as (t' & ? & ?);
      congruence.
  - specialize (Hgen html date). cbv zeta in Hgen. destruct Hgen as [Ht Hf].
    repeat split; intros; rewrite in_app_iff; intros [Hin|Hin].
    + apply Hg in Hin as (t' & ? & ?); congruence.
    + by apply (proj1 (Ht H) n p).
    + apply Hg in Hin as (t' & ? & ?); congruence.
    + by apply (proj2 (Ht H) t).
    + apply Hg in Hin as (t' & ? & ?); congruence.
    + by apply (Hf H n).
Qed.

Lemma stores_by_mode_witness :
  isTestMode IndexJs = false
  /\ forall n, ~ In (WriteFile n) (events (uploadPdf IndexJs anySurface restarted ∅)).
Proof.
  split; [reflexivity|].
  apply (proj2 (stores_by_mode IndexJs anySurface restarted ∅)).
  reflexivity.
Defined.

Lemma heightInMM_ge h : (297 <= heightInMM h)%Q.
Proof.
  unfold heightInMM, MathMax.
  destruct (Qle_bool (times (inject_Z h) (double 0.264583)) 297) eqn:E.
  - apply Qle_refl.
  - apply Qlt_le_weak, Qnot_le_lt. intros H.
    apply Qle_bool_iff in H. congruence.
Qed.

(** X18: whatever the measured height, every call of [page.pdf] the handler
    makes asks for a page 210mm wide and at least 297mm high, with
    backgrounds printed and no margins. *)
Theorem pdf_call_page_size v ext w body o :
  In (Pdf o) (events (uploadPdf v ext w body)) ->
  width o = js "210mm" /\ (297 <= height o)%Q
  /\ printBackground o = true
  /\ margin o = (js "0mm", js "0mm", js "0mm", js "0mm").
Proof.
  intros H. apply uploadPdf_pdf in H as [document ->].
  repeat split. apply heightInMM_ge.
Qed.

Lemma pdf_call_page_size_witness :
  width (pdfOptionsFor 2000) = js "210mm"
  /\ (297 <= height (pdfOptionsFor 2000))%Q
  /\ printBackground (pdfOptionsFor 2000) = true
  /\ margin (pdfOptionsFor 2000) = (js "0mm", js "0mm", js "0mm", js "0mm").
Proof.
  apply (pdf_call_page_size IndexJs anySurface restarted ∅ (pdfOptionsFor 2000)).
  vm_compute. tauto.
Defined.

(** ** The pruning callback as a whole *)

Lemma runsToEnd_dec_cases v data :
  runsToEnd v data
  \/ exists k, k ∈ textFields v /\ trimSafe (get data k) = false.
Proof.
  unfold runsToEnd.
  destruct (decide (Forall (fun k => trimSafe (get data k) = true)
                      (textFields v))) as [H|H]; [by left|right].
  apply not_Forall_Exists in H; [|apply _].
  apply Exists_exists in H as (k & Hk & Hv). exists k. split; [done|].
  simpl in Hv. by apply not_true_is_false.
Qed.

(** X19: the pruning callback throws, and then a [TypeError], exactly when
    one of the text fields it trims holds a value that is neither falsy nor
    a string; the document plays no part in that. *)
Theorem prune_throws_iff v data document :
  (prune v data document = Throw TypeError
   <-> exists k, k ∈ textFields v /\ trimSafe (get data k) = false)
  /\ (forall e, prune v data document = Throw e -> e = TypeError).
Proof.
  assert (Hthrow : (exists k, k ∈ textFields v /\ trimSafe (get data k) = false) ->
                   prune v data document = Throw TypeError).
  { intros (k & Hk & Hv). unfold prune. rewrite pruneSections_throws; [done|].
    intros Hrun. unfold runsToEnd in Hrun. rewrite Forall_forall in Hrun.
    specialize (Hrun k Hk). congruence. }
  destruct (runsToEnd_dec_cases v data) as [Hrun|Hbad].
  - rewrite (prune_removeAll _ _ _ Hrun). split; [|done].
    split; [done|]. intros (k & Hk & Hv).
    unfold runsToEnd in Hrun. rewrite Forall_forall in Hrun.
    specialize (Hrun k Hk). congruence.
  - rewrite (Hthrow Hbad). split; [done|]. by intros e [= <-].
Qed.

Example prune_throws_on_true :
  prune IndexJs (<[js "storyLink" := VBool true]> zeroAcademy) chartDoc
  = Throw TypeError
  /\ prune IndexJs (<[js "storyLink" := VBool false]> zeroAcademy) chartDoc
     = Ok chartDoc.
Proof. by vm_compute. Qed.

Lemma filled_emptyText v :
  (exists s, v = VString s /\ trim s <> []) ->
  trimSafe v = true /\ emptyText v = false.
Proof.
  intros (s & -> & Hs). unfold trimSafe, emptyText. simpl.
  rewrite bool_decide_eq_false_2 by done.
  destruct s as [|c s]; [done|]. done.
Qed.

(** X20: when every text field the callback looks at is a string with
    something other than white space in it and none of the five
    previous-period fields is blank, the callback leaves the document as it
    is. *)
Theorem prune_filled_unchanged v data document :
  (forall k, k ∈ textFields v -> exists s, get data k = VString s /\ trim s <> []) ->
  (forall k, k ∈ previousFields -> ~ blank (get data k)) ->
  prune v data document = Ok document.
Proof.
  intros Htext Hprev.
  assert (Hrun : runsToEnd v data).
  { unfold runsToEnd. rewrite Forall_forall. intros k Hk.
    by apply filled_emptyText, Htext. }
  assert (Hids : removedIds v data = []).
  { unfold removedIds, sectionIds.
    assert (Hp : hasEmptyPreviousData data = false).
    { destruct (hasEmptyPreviousData data) eqn:E; [|done].
      apply hasEmptyPreviousData_iff in E as (k & Hk & Hb).
      by destruct (Hprev k Hk). }
    rewrite Hp.
    assert (He : forall k, k ∈ textFields v -> emptyText (get data k) = false)
      by (intros k Hk; by apply filled_emptyText, Htext).
    destruct v; unfold textFields in He; simpl in He;
      rewrite !He by (repeat constructor); done. }
  by rewrite (prune_removeAll _ _ _ Hrun), Hids.
Qed.

Lemma prune_filled_unchanged_witness :
  prune (Part000 false) filledSample teamDoc = Ok teamDoc.
Proof.
  apply (prune_filled_unchanged (Part000 false) filledSample teamDoc).
  - intros k Hk. unfold textFields in Hk. simpl in Hk.
    repeat (apply elem_of_cons in Hk as [->|Hk];
            [eexists; split; [reflexivity | discriminate]|]).
    by apply elem_of_nil in Hk.
  - intros k Hk Hb. apply isEmptyPrevious_blank in Hb.
    unfold previousFields in Hk.
    repeat (apply elem_of_cons in Hk as [->|Hk]; [discriminate|]).
    by apply elem_of_nil in Hk.
Defined.

Lemma elements_remove_le el d : (elements (remove el d) <= elements d)%nat.
Proof.
  revert el. induction d as [|t a c IHc s IHs]; intros el; [simpl; lia|].
  destruct el as [|[] el]; simpl.
  - lia.
  - specialize (IHc el). lia.
  - specialize (IHs el). lia.
Qed.

Lemma elements_remove_found i el d :
  getElementById d i = Some el -> (elements (remove el d) < elements d)%nat.
Proof.
  revert el. induction d as [|t a c IHc s IHs]; intros el; [done|].
  simpl. destruct (bool_decide (a = Some i)).
  - intros [= <-]. simpl. lia.
  - destruct (getElementById c i) as [p|] eqn:Hc.
    + intros [= <-]. simpl. specialize (IHc _ eq_refl). lia.
    + destruct (getElementById s i) as [p|] eqn:Hs; [|done].
      intros [= <-]. simpl. specialize (IHs _ eq_refl). lia.
Qed.

Lemma removeAll_elements ids d :
  removeAll ids d = d \/ (elements (removeAll ids d) < elements d)%nat.
Proof.
  revert d. induction ids as [|i ids IH]; intros d; [by left|].
  change (removeAll (i :: ids) d) with (removeAll ids (removeIfPresent i d)).
  unfold removeIfPresent. destruct (getElementById d i) as [el|] eqn:H.
  - right. apply elements_remove_found in H.
    destruct (IH (remove el d)) as [->|Hlt]; lia.
  - apply IH.
Qed.

(** X21: the pruning callback only takes elements away: when it ends
    normally, no [id] occurs more often than before, and the document is
    either the same or has fewer elements. *)
Theorem prune_only_removes v data document document' :
  prune v data document = Ok document' ->
  (forall i, (countId i document' <= countId i document)%nat)
  /\ (document' = document \/ (elements document' < elements document)%nat).
Proof.
  intros H.
  assert (Hrun : runsToEnd v data) by (apply (prune_total v data document); eauto).
  rewrite (prune_removeAll _ _ _ Hrun) in H. injection H as <-. split.
  - intros i. apply countId_removeAll_le.
  - apply removeAll_elements.
Qed.

Lemma prune_only_removes_witness :
  (forall i, (countId i (Elem (js "body") None
                           (Elem (js "div") (Some (js "chart-container")) Leaf Leaf)
                           Leaf)
              <= countId i teamDoc)%nat)
  /\ (Elem (js "body") None
        (Elem (js "div") (Some (js "chart-container")) Leaf Leaf) Leaf = teamDoc
      \/ (elements (Elem (js "body") None
                      (Elem (js "div") (Some (js "chart-container")) Leaf Leaf)
                      Leaf)
          < elements teamDoc)%nat).
Proof.
  apply (prune_only_removes IndexJs blankTeam teamDoc). by vm_compute.
Defined.

Lemma removeAll_absent ids d :
  (forall i, i ∈ ids -> getElementById d i = None) -> removeAll ids d = d.
Proof.
  induction ids as [|i ids IH]; intros H; [done|].
  change (removeAll (i :: ids) d) with (removeAll ids (removeIfPresent i d)).
  unfold removeIfPresent. rewrite (H i) by left.
  apply IH. intros j Hj. apply H. by right.
Qed.

(** X22: on a document in which each [id] the callback asks to remove
    occurs at most once, running the callback a second time changes nothing
    more. *)
Theorem prune_idempotent v data document document' :
  (forall i, i ∈ removedIds v data -> (countId i document <= 1)%nat) ->
  prune v data document = Ok document' ->
  prune v data document' = Ok document'.
Proof.
  intros Huniq H.
  assert (Hrun : runsToEnd v data) by (apply (prune_total v data document); eauto).
  rewrite (prune_removeAll _ _ _ Hrun) in H. injection H as <-.
  rewrite (prune_removeAll _ _ _ Hrun). f_equal.
  apply removeAll_absent. intros i Hi. apply removeAll_gone; auto.
Qed.

Lemma prune_idempotent_witness :
  prune IndexJs blankTeam
    (Elem (js "body") None
       (Elem (js "div") (Some (js "chart-container")) Leaf Leaf) Leaf)
  = Ok (Elem (js "body") None
          (Elem (js "div") (Some (js "chart-container")) Leaf Leaf) Leaf).
Proof.
  apply (prune_idempotent IndexJs blankTeam teamDoc).
  - intros i Hi. vm_compute in Hi.
    repeat (apply elem_of_cons in Hi as [->|Hi]; [vm_compute; lia|]).
    by apply elem_of_nil in Hi.
  - by vm_compute.
Defined.

Example duplicate_ids_need_two_runs :
  let twice := Elem (js "p") (Some (js "academy")) Leaf
                 (Elem (js "p") (Some (js "academy")) Leaf Leaf) in
  prune IndexJs filledBlankAcademy twice
  = Ok (Elem (js "p") (Some (js "academy")) Leaf Leaf)
  /\ prune IndexJs filledBlankAcademy (Elem (js "p") (Some (js "academy")) Leaf Leaf)
     = Ok Leaf.
Proof. by vm_compute. Qed.

Lemma empty_emptyText v :
  ToBoolean v = false \/ (exists s, v = VString s /\ trim s = []) ->
  emptyText v = true.
Proof.
  unfold emptyText. intros [->|(s & -> & Hs)]; [done|].
  rewrite bool_decide_eq_true_2 by done. apply orb_true_r.
Qed.

(** X23: in both variants, a callback that runs to its end with a
    [leadershipAcademy] that is falsy or trims to the empty string removes
    the academy element, if there is one. *)
Theorem academy_removed v data document :
  runsToEnd v data ->
  ToBoolean (get data (js "leadershipAcademy")) = false
  \/ (exists s, get data (js "leadershipAcademy") = VString s /\ trim s = []) ->
  exists document', prune v data document = Ok document'
    /\ (countId (js "academy") document'
        <= pred (countId (js "academy") document))%nat
    /\ ((countId (js "academy") document <= 1)%nat ->
        getElementById document' (js "academy") = None).
Proof.
  intros Hrun Hb. apply prune_removes; [done|].
  unfold removedIds, sectionIds. rewrite (empty_emptyText _ Hb).
  rewrite !elem_of_app. left. left. by left.
Qed.

Lemma academy_removed_witness :
  exists document', prune IndexJs zeroAcademy academyOnly = Ok document'
    /\ (countId (js "academy") document'
        <= pred (countId (js "academy") academyOnly))%nat
    /\ ((countId (js "academy") academyOnly <= 1)%nat ->
        getElementById document' (js "academy") = None).
Proof.
  apply (academy_removed IndexJs zeroAcademy academyOnly).
  - exact zeroAcademy_runsToEnd.
  - left. reflexivity.
Defined.

(** X24: in both variants, a callback that runs to its end with a
    [storyLink] that is falsy or trims to the empty string removes the
    story-link element, if there is one. *)
Theorem story_link_removed v data document :
  runsToEnd v data ->
  ToBoolean (get data (js "storyLink")) = false
  \/ (exists s, get data (js "storyLink") = VString s /\ trim s = []) ->
  exists document', prune v data document = Ok document'
    /\ (countId (js "story-link") document'
        <= pred (countId (js "story-link") document))%nat
    /\ ((countId (js "story-link") document <= 1)%nat ->
        getElementById document' (js "story-link") = None).
Proof.
  intros Hrun Hb. apply prune_removes; [done|].
  unfold removedIds, sectionIds. rewrite (empty_emptyText _ Hb).
  rewrite !elem_of_app. left. right. right. right. by left.
Qed.

Lemma story_link_removed_witness :
  exists document', prune IndexJs noLink storyDoc = Ok document'
    /\ (countId (js "story-link") document'
        <= pred (countId (js "story-link") storyDoc))%nat
    /\ ((countId (js "story-link") storyDoc <= 1)%nat ->
        getElementById document' (js "story-link") = None).
Proof.
  apply (story_link_removed IndexJs noLink storyDoc).
  - repeat constructor.
  - left. reflexivity.
Defined.

Example story_link_sample :
  prune IndexJs noLink storyDoc
  = Ok (Elem (js "body") None
          (Elem (js "section") (Some (js "story")) Leaf Leaf) Leaf).
Proof. by vm_compute. Qed.

(** ** The canvas callback *)

Lemma countId_rasterize_le i d : (countId i (rasterize d) <= countId i d)%nat.
Proof.
  induction d as [|t a c IHc s IHs]; simpl; [lia|].
  destruct (bool_decide (t = js "canvas")); simpl; lia.
Qed.

(** X25: after the second callback no [canvas] is left in the document;
    a document without a [canvas] comes out as it went in, so that running
    the callback again changes nothing; and no [id] occurs more often than
    before (the image put in a canvas's place has none). *)
Theorem rasterize_no_canvas d :
  countTag (js "canvas") (rasterize d) = 0%nat
  /\ (countTag (js "canvas") d = 0%nat -> rasterize d = d)
  /\ rasterize (rasterize d) = rasterize d
  /\ (forall i, (countId i (rasterize d) <= countId i d)%nat).
Proof.
  assert (H1 : forall d, countTag (js "canvas") (rasterize d) = 0%nat).
  { clear d. induction d as [|t a c IHc s IHs]; simpl; [done|].
    destruct (bool_decide (t = js "canvas")) eqn:E; simpl.
    - by rewrite IHs.
    - by rewrite E, IHc, IHs. }
  assert (H2 : forall d, countTag (js "canvas") d = 0%nat -> rasterize d = d).
  { clear d. induction d as [|t a c IHc s IHs]; simpl; [done|].
    destruct (bool_decide (t = js "canvas")); simpl; [lia|].
    intros H. rewrite IHc, IHs by lia. done. }
  repeat split; auto using countId_rasterize_le.
Qed.

Lemma rasterize_no_canvas_witness :
  rasterize (Elem (js "body") None Leaf Leaf) = Elem (js "body") None Leaf Leaf.
Proof.
  destruct (rasterize_no_canvas (Elem (js "body") None Leaf Leaf))
    as (_ & H & _).
  apply H. reflexivity.
Defined.

Example rasterize_sample :
  rasterize chartDoc
  = Elem (js "body") None
      (Elem (js "div") (Some (js "chart-container"))
         (Elem (js "img") None Leaf Leaf) Leaf)
      Leaf.
Proof. by vm_compute. Qed.

(** ** The OAuth routes and the handler *)

(** X26: outside test mode, a callback with a code for which the token
    exchange and the write of [tokens.json] succeed answers 200, caches and
    persists the new tokens and touches nothing else; from then on
    [/auth-status] reports authenticated and no upload is answered 401. *)
Theorem callback_authenticates v client w query t :
  isTestMode v = false ->
  ToBoolean query = true ->
  getToken client query = Ok t ->
  (exists u, writeTokens client t = Ok u) ->
  let w' := fst (fst (oauthCallback v client w query)) in
  code (snd (oauthCallback v client w query)) = 200%Z
  /\ tokens w' = Some t /\ tokensFile w' = Some t
  /\ templateFile w' = templateFile w /\ now w' = now w
  /\ snd (fst (oauthCallback v client w query))
     = [GetToken query; SetClientCredentials t; WriteTokens t]
  /\ (exists m, sent (authStatus v w') = AuthStatus true None m)
  /\ (forall ext body, status (reply (uploadPdf v ext w' body)) <> 401%Z).
Proof.
  intros Hv Hq Ht [u Hu]. unfold oauthCallback.
  rewrite Hv, Hq, Ht, Hu. simpl. repeat split.
  - unfold authStatus. rewrite Hv. simpl. eauto.
  - intros ext body H. apply rejected_iff in H as (_ & H & _). done.
Qed.

Lemma callback_authenticates_witness :
  let w' := fst (fst (oauthCallback IndexJs goodClient loggedOut
                        (VString (js "4/abc")))) in
  code (snd (oauthCallback IndexJs goodClient loggedOut (VString (js "4/abc"))))
  = 200%Z
  /\ tokens w' = Some (Credentials (js "fresh"))
  /\ tokensFile w' = Some (Credentials (js "fresh"))
  /\ templateFile w' = templateFile loggedOut /\ now w' = now loggedOut
  /\ snd (fst (oauthCallback IndexJs goodClient loggedOut (VString (js "4/abc"))))
     = [GetToken (VString (js "4/abc"));
        SetClientCredentials (Credentials (js "fresh"));
        WriteTokens (Credentials (js "fresh"))]
  /\ (exists m, sent (authStatus IndexJs w') = AuthStatus true None m)
  /\ (forall ext body, status (reply (uploadPdf IndexJs ext w' body)) <> 401%Z).
Proof.
  apply (callback_authenticates IndexJs goodClient loggedOut
           (VString (js "4/abc")) (Credentials (js "fresh"))).
  - reflexivity.
  - reflexivity.
  - reflexivity.
  - by exists tt.
Defined.

(** X27: the callback answers 200, 400 or 500; 400 exactly when, outside
    test mode, the code is missing or empty, and then without any call; and
    whenever the answer is not 200, and always in test mode, the world -
    cached tokens and [tokens.json] included - is left as it was. *)
Theorem callback_outcomes v client w query :
  (code (snd (oauthCallback v client w query)) = 200%Z
   \/ code (snd (oauthCallback v client w query)) = 400%Z
   \/ code (snd (oauthCallback v client w query)) = 500%Z)
  /\ (code (snd (oauthCallback v client w query)) = 400%Z
      <-> isTestMode v = false /\ ToBoolean query = false)
  /\ (code (snd (oauthCallback v client w query)) = 400%Z ->
      snd (fst (oauthCallback v client w query)) = [])
  /\ (code (snd (oauthCallback v client w query)) <> 200%Z ->
      fst (fst (oauthCallback v client w query)) = w)
  /\ (isTestMode v = true ->
      fst (fst (oauthCallback v client w query)) = w
      /\ snd (fst (oauthCallback v client w query)) = []).
Proof.
  unfold oauthCallback.
  destruct (isTestMode v); [simpl; intuition congruence|].
  destruct (ToBoolean query); simpl; [|intuition congruence].
  destruct (getToken client query) as [t|e]; simpl; [|intuition congruence].
  destruct (writeTokens client t); simpl; intuition congruence.
Qed.

Lemma callback_outcomes_witness :
  fst (fst (oauthCallback IndexJs failingWrite restarted (VString (js "4/abc"))))
  = restarted.
Proof.
  destruct (callback_outcomes IndexJs failingWrite restarted
              (VString (js "4/abc"))) as (_ & _ & _ & H & _).
  apply H. vm_compute. discriminate.
Defined.

Example failed_write_sets_client_only :
  oauthCallback IndexJs failingWrite loggedOut (VString (js "4/abc"))
  = (loggedOut,
     [GetToken (VString (js "4/abc"));
      SetClientCredentials (Credentials (js "fresh"));
      WriteTokens (Credentials (js "fresh"))],
     {| code := 500; sent := Plain (js "Authentication failed") |}).
Proof. by vm_compute. Qed.

(** X28: when [/auth-status] reports authenticated, no upload is answered
    401. *)
Theorem auth_status_implies_gate v w ext body m u :
  sent (authStatus v w) = AuthStatus true u m ->
  status (reply (uploadPdf v ext w body)) <> 401%Z.
Proof.
  intros Hs H. apply rejected_iff in H as (Hv & Hc & _).
  unfold authStatus in Hs. rewrite Hv, Hc in Hs. done.
Qed.

Lemma auth_status_implies_gate_witness :
  sent (authStatus IndexJs readyWorld) = AuthStatus true None None
  /\ status (reply (uploadPdf IndexJs anySurface readyWorld ∅)) <> 401%Z.
Proof.
  split; [reflexivity|].
  apply (auth_status_implies_gate IndexJs readyWorld anySurface ∅ None None).
  reflexivity.
Defined.

(** The converse does not hold: with [tokens.json] in place and nothing
    cached, [/auth-status] says no while an upload goes through. *)
Example auth_status_can_lag :
  sent (authStatus IndexJs restarted) = AuthStatus false (Some (js "/auth")) None
  /\ status (reply (uploadPdf IndexJs anySurface restarted ∅)) = 200%Z.
Proof. by vm_compute. Qed.
